(** * The Flashbots MEV executor: mempool monitor, scorer, bundle builder,
      relay submitter and nonce tracker

    A shallow embedding of [src/FlashbotsMEVExecutor.ts].  That file holds two
    revisions of the class one after the other; the later one (the one that
    reads the DEX reserves, from line 196 on) is the one embedded here.

    - [BigNumber] values are unbounded integers: [Z].  [div] truncates and
      raises on a zero divisor.
    - [this.nonce] has type [number | undefined]; it only ever holds integer
      transaction counts, which a JavaScript number represents exactly
      (below 2^53), so a defined nonce is an integer of [Z], next to
      [undefined] and the [NaN] that [undefined + 1] would give.
    - The confidence score is a JavaScript number, that is a binary64 float:
      Rocq's primitive [float], with its comparison.
    - An [async] function is a tree of synchronous steps and suspension points
      ([await]); each suspension names the request made to an external
      collaborator (chain client, contract, relay).  The tree is run either
      alone against an oracle that settles its requests ([exec]) or as one
      task among many in an event loop ([step]), where a task runs from one
      suspension point to the next without interruption. *)

From Stdlib Require Import ZArith List String Bool Lia Floats Sorted.
Import ListNotations.
Local Open Scope string_scope.
Local Open Scope list_scope.
Local Open Scope Z_scope.

Set Implicit Arguments.
(* Decimal literals such as 0.85 denote the nearest binary64 value, as they
   do in JavaScript. *)
Set Warnings "-inexact-float".

(** ** Values *)

(** [BigNumber] of [@ethersproject/bignumber]. *)
Module BigNumber.
Definition t : Type := Z.
Definition from (n : Z) : t := n.
Definition mul (a b : t) : t := a * b.
Definition sub (a b : t) : t := a - b.
Definition abs (a : t) : t := Z.abs a.
Definition gt (a b : t) : bool := b <? a.
(** [a.div(b)]: the quotient truncated towards zero; [None] stands for the
    "division-by-zero" fault the library throws. *)
Definition div (a b : t) : option t :=
  if b =? 0 then None else Some (Z.quot a b).
End BigNumber.

(** [parseEther("1")], [parseEther("0.05")] and [parseEther(String(n))] for an
    integer [n]: the amount in wei. *)
Definition WEI_PER_ETHER : Z := 1000000000000000000.
Definition parseEther_int (n : Z) : BigNumber.t := n * WEI_PER_ETHER.
Definition parseEther_0_05 : BigNumber.t := 50000000000000000.

(** A value of type [number | undefined] holding an integer count. *)
Inductive jsnum : Type :=
| undefined
| num (n : Z)
| NaN.

Definition is_undefined (v : jsnum) : bool :=
  match v with undefined => true | _ => false end.

(** [x > v] for a number [x]: false against [undefined] and [NaN]. *)
Definition js_gt (x : Z) (v : jsnum) : bool :=
  match v with num n => n <? x | _ => false end.

(** [v++]. *)
Definition js_incr (v : jsnum) : jsnum :=
  match v with num n => num (n + 1) | _ => NaN end.

(** The constants of the module. *)
Definition DEX_A_PAIR_ADDRESS := "0xA478c2975ab1Ea89e8196811F51A7B9429c786c9".
Definition DEX_B_PAIR_ADDRESS := "0x06da0fdE810a9f5B4C72B3C84b2F823eF69f8480".
Definition TARGET_TOKEN_ADDRESS := "0xC02aaA39b223FE8D0A0e5C4F27EAD9083C756Cc2".
Definition MAX_LOAN_AMOUNT_ETH : Z := 100000.
Definition AI_THRESHOLD : float := 0.85%float.
Definition MAX_LOAN_WEI : BigNumber.t := parseEther_int MAX_LOAN_AMOUNT_ETH.
Definition MIN_PROFIT_THRESHOLD : BigNumber.t := parseEther_0_05.
Definition GAS_LIMIT : Z := 3000000.

(** A fetched transaction; [tx_data] is the field [tx.data]. *)
Record Tx : Type := mkTx {
  tx_hash : string;
  tx_data : option string
}.

(** [!tx.data]: a missing or empty string is falsy. *)
Definition lacks_data (tx : Tx) : bool :=
  match tx_data tx with
  | None => true
  | Some s => match s with EmptyString => true | _ => false end
  end.

(** The result of [getReserves()]: [(reserve0, reserve1, blockTimestampLast)]. *)
Record Reserves : Type := mkReserves {
  reserve0 : BigNumber.t;
  reserve1 : BigNumber.t;
  blockTimestampLast : Z
}.

(** What [analyzeOpportunity] returns. *)
Record Opportunity : Type := mkOpportunity {
  isProfitable : bool;
  estimatedProfit : BigNumber.t;
  aiScore : float
}.

(** The unsigned transaction built by [populateTransaction]. *)
Record PopulatedTx : Type := mkPopulatedTx {
  ptx_to : string;
  ptx_calldata : string
}.

(** A signed bundle: the raw signed transactions. *)
Definition SignedBundle : Type := list string.

(** The relay's answer to [simulate]: [error] is present on a rejection. *)
Record RelayError : Type := mkRelayError {
  message : string;
  code : Z
}.

Record SimulationResult : Type := mkSimulationResult {
  error : option RelayError
}.

(** ** Requests to the collaborators *)

Inductive Ext : Type :=
| getBlockNumber
| createFlashbotsProvider
| getTransactionCount
| getTransaction (txHash : string)
| getReserves (pair : string)
| populateRequestFlashLoan (token : string) (amount : BigNumber.t)
                           (data : option string)
| signBundle (transaction : PopulatedTx) (nonce : jsnum) (gasLimit : Z)
| simulate (signedTransactions : SignedBundle) (targetBlock : Z)
| sendBundle (signedTransactions : SignedBundle) (targetBlock : Z).

(** The type of the value a request resolves to. *)
Definition Resp (e : Ext) : Type :=
  match e with
  | getBlockNumber => Z
  | createFlashbotsProvider => unit
  | getTransactionCount => Z
  | getTransaction _ => option Tx
  | getReserves _ => Reserves
  | populateRequestFlashLoan _ _ _ => PopulatedTx
  | signBundle _ _ _ => SignedBundle
  | simulate _ _ => SimulationResult
  | sendBundle _ _ => unit
  end.

(** A settled promise. *)
Inductive settled (X : Type) : Type :=
| fulfilled (x : X)
| rejected (reason : string).
Arguments rejected {X} reason.

(** The lines written to the console, by their payload. *)
Inductive LogLine : Type :=
| LogInitialized (n : Z)
| LogOpportunity (profit : BigNumber.t) (score : float)
| LogAiFilter (score : float)
| LogFlashLoan (loanAmount : BigNumber.t) (nonce : jsnum)
| LogSimulationFailed (msg : string)
| LogSuccess (targetBlock : Z)
| LogMonitorAlive (check : Z).

(** ** Asynchronous programs *)

Inductive Prog (A : Type) : Type :=
| Ret (a : A)
| Throw (err : string)
| Await (e : Ext) (k : settled (Resp e) -> Prog A)
| ReadNonce (k : jsnum -> Prog A)
| WriteNonce (v : jsnum) (k : Prog A)
| ReadFlashbotsProvider (k : bool -> Prog A)
| SetFlashbotsProvider (k : Prog A)
| MathRandom (k : float -> Prog A)
| ConsoleLog (l : LogLine) (k : Prog A).
Arguments Throw {A} err.

Fixpoint bind {A B : Type} (p : Prog A) (f : A -> Prog B) : Prog B :=
  match p with
  | Ret a => f a
  | Throw err => Throw err
  | Await e k => Await e (fun r => bind (k r) f)
  | ReadNonce k => ReadNonce (fun v => bind (k v) f)
  | WriteNonce v k => WriteNonce v (bind k f)
  | ReadFlashbotsProvider k => ReadFlashbotsProvider (fun b => bind (k b) f)
  | SetFlashbotsProvider k => SetFlashbotsProvider (bind k f)
  | MathRandom k => MathRandom (fun x => bind (k x) f)
  | ConsoleLog l k => ConsoleLog l (bind k f)
  end.

(** [try { body } catch (e) { handler e }]. *)
Fixpoint try_catch {A : Type} (body : Prog A) (handler : string -> Prog A)
  : Prog A :=
  match body with
  | Ret a => Ret a
  | Throw err => handler err
  | Await e k => Await e (fun r => try_catch (k r) handler)
  | ReadNonce k => ReadNonce (fun v => try_catch (k v) handler)
  | WriteNonce v k => WriteNonce v (try_catch k handler)
  | ReadFlashbotsProvider k =>
      ReadFlashbotsProvider (fun b => try_catch (k b) handler)
  | SetFlashbotsProvider k => SetFlashbotsProvider (try_catch k handler)
  | MathRandom k => MathRandom (fun x => try_catch (k x) handler)
  | ConsoleLog l k => ConsoleLog l (try_catch k handler)
  end.

Declare Scope prog_scope.
Delimit Scope prog_scope with prog.
Notation "x <- p ;; q" := (bind p (fun x => q))
  (at level 61, p at next level, right associativity) : prog_scope.
Notation "p ;;; q" := (bind p (fun _ => q))
  (at level 61, right associativity) : prog_scope.
Local Open Scope prog_scope.

(** [await e]: the value on fulfilment, the rejection thrown otherwise. *)
Definition await (e : Ext) : Prog (Resp e) :=
  Await e (fun r =>
    match r with
    | fulfilled x => Ret x
    | rejected reason => Throw reason
    end).

(** [await Promise.all([e1, e2])]: both requests are made; the result is the
    pair of values, or the rejection of the one that failed. *)
Definition promise_all2 (e1 e2 : Ext) : Prog (Resp e1 * Resp e2) :=
  Await e1 (fun r1 =>
  Await e2 (fun r2 =>
    match r1, r2 with
    | fulfilled x1, fulfilled x2 => Ret (x1, x2)
    | rejected reason, _ => Throw reason
    | _, rejected reason => Throw reason
    end)).

Definition readNonce : Prog jsnum := ReadNonce (fun v => Ret v).
Definition writeNonce (v : jsnum) : Prog unit := WriteNonce v (Ret tt).
Definition readFlashbotsProvider : Prog bool :=
  ReadFlashbotsProvider (fun b => Ret b).
Definition setFlashbotsProvider : Prog unit := SetFlashbotsProvider (Ret tt).
Definition mathRandom : Prog float := MathRandom (fun x => Ret x).
Definition log (l : LogLine) : Prog unit := ConsoleLog l (Ret tt).

(** A [BigNumber] division inside a program. *)
Definition bn_div (a b : BigNumber.t) : Prog BigNumber.t :=
  match BigNumber.div a b with
  | Some q => Ret q
  | None => Throw "division-by-zero"
  end.

(** ** The executor *)

Definition no_opportunity : Opportunity :=
  mkOpportunity false (BigNumber.from 0) 0%float.

(** [analyzeOpportunity(tx)], lines 345-380. *)
Definition analyzeOpportunity (tx : Tx) : Prog Opportunity :=
  fetched <-
    try_catch
      (rs <- promise_all2 (getReserves DEX_A_PAIR_ADDRESS)
                          (getReserves DEX_B_PAIR_ADDRESS) ;;
       Ret (Some rs))
      (fun _ => Ret None) ;;
  match fetched with
  | None => Ret no_opportunity
  | Some (reservesA, reservesB) =>
      priceA <- bn_div (BigNumber.mul (reserve0 reservesA) (parseEther_int 1))
                       (reserve1 reservesA) ;;
      priceB <- bn_div (BigNumber.mul (reserve0 reservesB) (parseEther_int 1))
                       (reserve1 reservesB) ;;
      let difference := BigNumber.abs (BigNumber.sub priceA priceB) in
      onePercent <- bn_div priceA 100 ;;
      if BigNumber.gt difference onePercent then
        hundredth <- bn_div difference 100 ;;
        let potentialProfit := BigNumber.mul hundredth (parseEther_int 1) in
        if BigNumber.gt potentialProfit MIN_PROFIT_THRESHOLD then
          r <- mathRandom ;;
          let aiScore := (r * 0.4 + 0.6)%float in
          Ret (mkOpportunity true potentialProfit aiScore)
        else Ret no_opportunity
      else Ret no_opportunity
  end.

(** The loan sizing of [executeFlashLoan], lines 302-306. *)
Definition loanAmount (estimatedProfit : BigNumber.t) : BigNumber.t :=
  let loanAmount := BigNumber.mul estimatedProfit 10 in
  if BigNumber.gt loanAmount MAX_LOAN_WEI then MAX_LOAN_WEI else loanAmount.

(** [executeFlashLoan(targetTx, estimatedProfit)], lines 298-342. *)
Definition executeFlashLoan (targetTx : Tx) (estimatedProfit : BigNumber.t)
  : Prog unit :=
  fb <- readFlashbotsProvider ;;
  n0 <- readNonce ;;
  if negb fb || is_undefined n0 then Throw "Executor or nonce not ready."
  else
    let loanAmount := loanAmount estimatedProfit in
    n1 <- readNonce ;;
    log (LogFlashLoan loanAmount n1) ;;;
    flashLoanTx <- await (populateRequestFlashLoan TARGET_TOKEN_ADDRESS
                            loanAmount (tx_data targetTx)) ;;
    n2 <- readNonce ;;
    signedTransactions <- await (signBundle flashLoanTx n2 GAS_LIMIT) ;;
    blockNumber <- await getBlockNumber ;;
    let targetBlock := blockNumber + 1 in
    simulationResult <- await (simulate signedTransactions targetBlock) ;;
    match error simulationResult with
    | Some err => log (LogSimulationFailed (message err))
    | None =>
        await (sendBundle signedTransactions targetBlock) ;;;
        log (LogSuccess targetBlock) ;;;
        n3 <- readNonce ;;
        writeNonce (js_incr n3)
    end.

(** What the ['pending'] listener does with a scored opportunity,
    lines 274-282. *)
Definition onScored (tx : Tx) (o : Opportunity) : Prog unit :=
  if isProfitable o then
    log (LogOpportunity (estimatedProfit o) (aiScore o)) ;;;
    if (AI_THRESHOLD <? aiScore o)%float then
      executeFlashLoan tx (estimatedProfit o)
    else log (LogAiFilter (aiScore o))
  else Ret tt.

(** The ['pending'] listener registered by [startMonitoring],
    lines 268-283. *)
Definition onPending (txHash : string) : Prog unit :=
  fetched <- await (getTransaction txHash) ;;
  match fetched with
  | None => Ret tt
  | Some tx =>
      if lacks_data tx then Ret tt
      else o <- analyzeOpportunity tx ;; onScored tx o
  end.

(** [periodicResync()], lines 382-388.  [this.provider] is set by the
    constructor, so its guard never returns. *)
Definition periodicResync : Prog unit :=
  newNonce <- await getTransactionCount ;;
  n <- readNonce ;;
  if is_undefined n || js_gt newNonce n then writeNonce (num newNonce)
  else Ret tt.

(** [initialize()], lines 249-262. *)
Definition initialize : Prog unit :=
  await getBlockNumber ;;;
  await createFlashbotsProvider ;;;
  setFlashbotsProvider ;;;
  n <- await getTransactionCount ;;
  writeNonce (num n) ;;;
  log (LogInitialized n).

(* The handlers are unfolded on request only. *)
Arguments analyzeOpportunity : simpl never.
Arguments executeFlashLoan : simpl never.
Arguments onScored : simpl never.

(** ** Running a program *)

(** The mutable fields of the executor, and the generator behind
    [Math.random()] (the draws to come and the position of the next one). *)
Record World : Type := mkWorld {
  flashbotsProvider : bool;
  nonce : jsnum;
  random_draws : nat -> float;
  random_next : nat
}.

Definition set_nonce (v : jsnum) (w : World) : World :=
  mkWorld (flashbotsProvider w) v (random_draws w) (random_next w).
Definition set_flashbotsProvider (w : World) : World :=
  mkWorld true (nonce w) (random_draws w) (random_next w).
Definition draw (w : World) : float := random_draws w (random_next w).
Definition advance (w : World) : World :=
  mkWorld (flashbotsProvider w) (nonce w) (random_draws w)
          (S (random_next w)).

(** What an observer sees: the requests made and the lines logged. *)
Inductive Event : Type :=
| Called (e : Ext)
| Logged (l : LogLine).

(** How a call ends. *)
Inductive Outcome (A : Type) : Type :=
| Returned (a : A)
| Threw (err : string).
Arguments Threw {A} err.

(** An oracle settles every request. *)
Definition Oracle : Type := forall e : Ext, settled (Resp e).

Record Run (A : Type) : Type := mkRun {
  outcome : Outcome A;
  final : World;
  events : list Event
}.

Definition emit {A : Type} (ev : Event) (r : Run A) : Run A :=
  mkRun (outcome r) (final r) (ev :: events r).

(** [exec p env w]: [p] run to completion from [w], alone, each request
    settled by [env]. *)
Fixpoint exec {A : Type} (p : Prog A) (env : Oracle) (w : World) : Run A :=
  match p with
  | Ret a => mkRun (Returned a) w []
  | Throw err => mkRun (Threw err) w []
  | Await e k => emit (Called e) (exec (k (env e)) env w)
  | ReadNonce k => exec (k (nonce w)) env w
  | WriteNonce v k => exec k env (set_nonce v w)
  | ReadFlashbotsProvider k => exec (k (flashbotsProvider w)) env w
  | SetFlashbotsProvider k => exec k env (set_flashbotsProvider w)
  | MathRandom k => exec (k (draw w)) env (advance w)
  | ConsoleLog l k => emit (Logged l) (exec k env w)
  end.

(** The run [r] after the events [pre]. *)
Definition after {A : Type} (pre : list Event) (r : Run A) : Run A :=
  mkRun (outcome r) (final r) (pre ++ events r).

(** ** The event loop *)

(** Where a program stands after running up to its next suspension. *)
Inductive Paused (A : Type) : Type :=
| Finished (a : A)
| Failed (err : string)
| Waiting (e : Ext) (k : settled (Resp e) -> Prog A).
Arguments Failed {A} err.

Record Segment (A : Type) : Type := mkSegment {
  paused : Paused A;
  seg_world : World;
  seg_events : list Event
}.

Definition seg_emit {A : Type} (ev : Event) (s : Segment A) : Segment A :=
  mkSegment (paused s) (seg_world s) (ev :: seg_events s).

(** [seg p w]: the synchronous run of [p] from [w] up to its first [await],
    where the request is made and the task yields. *)
Fixpoint seg {A : Type} (p : Prog A) (w : World) : Segment A :=
  match p with
  | Ret a => mkSegment (Finished a) w []
  | Throw err => mkSegment (Failed err) w []
  | Await e k => mkSegment (Waiting e k) w [Called e]
  | ReadNonce k => seg (k (nonce w)) w
  | WriteNonce v k => seg k (set_nonce v w)
  | ReadFlashbotsProvider k => seg (k (flashbotsProvider w)) w
  | SetFlashbotsProvider k => seg k (set_flashbotsProvider w)
  | MathRandom k => seg (k (draw w)) (advance w)
  | ConsoleLog l k => seg_emit (Logged l) (seg k w)
  end.

(** A task of the loop. *)
Inductive Task : Type :=
| Suspended (e : Ext) (k : settled (Resp e) -> Prog unit)
| Completed
| Crashed (err : string).

Definition task_of (p : Paused unit) : Task :=
  match p with
  | Finished _ => Completed
  | Failed err => Crashed err
  | Waiting e k => Suspended e k
  end.

(** The process: the executor's fields, the tasks started so far (a task
    keeps its position), everything observed so far, the counter of the
    health check, and whether an unhandled rejection has stopped the process
    ([process.exit(1)] in the entry point). *)
Record Machine : Type := mkMachine {
  world : World;
  pool : list Task;
  trace : list Event;
  healthCheckCount : Z;
  exited : bool
}.

Inductive Label : Type :=
| PendingHash (txHash : string)
| Tick
| Settle (i : nat) (env : Oracle).

Fixpoint replace_nth {X : Type} (i : nat) (x : X) (l : list X) : list X :=
  match l, i with
  | [], _ => []
  | _ :: t, O => x :: t
  | h :: t, S j => h :: replace_nth j x t
  end.

Definition is_failed {A : Type} (p : Paused A) : bool :=
  match p with Failed _ => true | _ => false end.

(** A new task: it runs at once up to its first suspension. *)
Definition spawn (p : Prog unit) (m : Machine) (pre : list Event) (hc : Z)
  : Machine :=
  let s := seg p (world m) in
  mkMachine (seg_world s) (pool m ++ [task_of (paused s)])
            (trace m ++ pre ++ seg_events s) hc (is_failed (paused s)).

(** One turn of the loop: a pending hash arrives, the health check fires, or
    the request task [i] waits on is settled and the task resumes. *)
Definition step (m : Machine) (l : Label) : option Machine :=
  if exited m then None
  else
    match l with
    | PendingHash txHash =>
        Some (spawn (onPending txHash) m [] (healthCheckCount m))
    | Tick =>
        let hc := healthCheckCount m + 1 in
        Some (spawn periodicResync m [Logged (LogMonitorAlive hc)] hc)
    | Settle i env =>
        match nth_error (pool m) i with
        | Some (Suspended e k) =>
            let s := seg (k (env e)) (world m) in
            Some (mkMachine (seg_world s)
                    (replace_nth i (task_of (paused s)) (pool m))
                    (trace m ++ seg_events s) (healthCheckCount m)
                    (is_failed (paused s)))
        | _ => None
        end
    end.

Fixpoint run (m : Machine) (ls : list Label) : option Machine :=
  match ls with
  | [] => Some m
  | l :: ls' =>
      match step m l with
      | Some m' => run m' ls'
      | None => None
      end
  end.

(** [startMonitoring()] from a world: it refuses to start before
    [initialize()] has created the relay session. *)
Definition monitoring (w : World) : Machine := mkMachine w [] [] 0 false.

Definition startMonitoring (w : World) : option Machine :=
  if flashbotsProvider w then Some (monitoring w) else None.

(** The machine a schedule leads to (the machine itself when the schedule
    cannot be followed). *)
Definition run_or (m : Machine) (ls : list Label) : Machine :=
  match run m ls with Some m' => m' | None => m end.

Definition reachable (m : Machine) : Prop :=
  exists w m0 ls, startMonitoring w = Some m0 /\ run m0 ls = Some m.

(** ** Observations on the nonce *)

(** The order in which the tracked nonce may move: [undefined] may become
    anything, a number may only grow. *)
Definition nonce_le (a b : jsnum) : Prop :=
  match a, b with
  | undefined, _ => True
  | num x, num y => x <= y
  | NaN, NaN => True
  | _, _ => False
  end.


(** What starts a synchronous segment of a task: its creation, or the
    settlement of the request it was waiting on. *)
Inductive Trigger : Type :=
| Started
| Settled (e : Ext) (r : settled (Resp e)).

(** What [periodicResync] makes of the tracked value [v] when the chain
    reports [c]. *)
Definition resynced (c : Z) (v : jsnum) : jsnum :=
  if is_undefined v || js_gt c v then num c else v.

(** The nonce discipline of a segment that starts in [w0] and ends in [w]:
    the nonce moves only when a [sendBundle] is acknowledged (by one) or when
    a transaction count arrives (up to that count). *)
Definition nonce_discipline (t : Trigger) (w0 w : World) : Prop :=
  match t with
  | Started => nonce w = nonce w0
  | Settled e r =>
      match e as e' return settled (Resp e') -> Prop with
      | sendBundle _ _ => fun r' =>
          match r' with
          | fulfilled _ => nonce w = js_incr (nonce w0)
          | rejected _ => nonce w = nonce w0
          end
      | getTransactionCount => fun r' =>
          match r' with
          | fulfilled c => nonce w = resynced c (nonce w0)
          | rejected _ => nonce w = nonce w0
          end
      | _ => fun _ => nonce w = nonce w0
      end r
  end.

Section EverySegment.
Variable R : Trigger -> World -> World -> Prop.

(** [every_segment p t w0 w]: [p] is the rest of a segment that was
    started by [t] in world [w0] and has reached [w]; that segment, and
    every later segment of [p] whatever the world it resumes in, satisfies
    [R]. *)
Fixpoint every_segment {A : Type} (p : Prog A) (t : Trigger) (w0 w : World)
  : Prop :=
  match p with
  | Ret _ => R t w0 w
  | Throw _ => R t w0 w
  | Await e k =>
      R t w0 w /\
      forall (r : settled (Resp e)) (w' : World),
        every_segment (k r) (Settled e r) w' w'
  | ReadNonce k => every_segment (k (nonce w)) t w0 w
  | WriteNonce v k => every_segment k t w0 (set_nonce v w)
  | ReadFlashbotsProvider k =>
      every_segment (k (flashbotsProvider w)) t w0 w
  | SetFlashbotsProvider k => every_segment k t w0 (set_flashbotsProvider w)
  | MathRandom k => every_segment (k (draw w)) t w0 (advance w)
  | ConsoleLog _ k => every_segment k t w0 w
  end.

Definition task_ok (task : Task) : Prop :=
  match task with
  | Suspended e k =>
      forall (r : settled (Resp e)) (w : World),
        every_segment (k r) (Settled e r) w w
  | _ => True
  end.

Definition paused_ok {A : Type} (p : Paused A) : Prop :=
  match p with
  | Waiting e k =>
      forall (r : settled (Resp e)) (w : World),
        every_segment (k r) (Settled e r) w w
  | _ => True
  end.
End EverySegment.

(** Every suspended task of the pool keeps the nonce discipline from its
    next segment on. *)
Definition pool_ok (p : list Task) : Prop :=
  Forall (task_ok nonce_discipline) p.

(** The trigger of the segment that a label runs. *)
Definition trigger_of (m : Machine) (l : Label) : Trigger :=
  match l with
  | Settle i env =>
      match nth_error (pool m) i with
      | Some (Suspended e _) => Settled e (env e)
      | _ => Started
      end
  | _ => Started
  end.





(** ** Handlers run one at a time *)

(** A job is a handler together with the oracle that settles its requests. *)
Inductive Job : Type :=
| JobPending (txHash : string) (env : Oracle)
| JobResync (env : Oracle).

Definition job_prog (j : Job) : Prog unit :=
  match j with
  | JobPending txHash _ => onPending txHash
  | JobResync _ => periodicResync
  end.

Definition job_env (j : Job) : Oracle :=
  match j with
  | JobPending _ env => env
  | JobResync env => env
  end.

Definition is_threw {A : Type} (o : Outcome A) : bool :=
  match o with Threw _ => true | _ => false end.

(** The label that starts a job's handler in the loop, and the task a
    finished handler leaves. *)
Definition job_label (j : Job) : Label :=
  match j with
  | JobPending txHash _ => PendingHash txHash
  | JobResync _ => Tick
  end.

Definition task_of_outcome (o : Outcome unit) : Task :=
  match o with
  | Returned _ => Completed
  | Threw err => Crashed err
  end.


(** The nonces of the bundles the relay acknowledged, read off the trace of
    such a run: the nonce of the last bundle signed before each success
    line. *)
Fixpoint submitted_from (cur : option jsnum) (tr : list Event) : list jsnum :=
  match tr with
  | [] => []
  | Called (signBundle _ n _) :: tr' => submitted_from (Some n) tr'
  | Logged (LogSuccess _) :: tr' =>
      match cur with
      | Some n => n :: submitted_from None tr'
      | None => submitted_from None tr'
      end
  | _ :: tr' => submitted_from cur tr'
  end.





(** ** Observations on a run *)

(** The requests made, in order. *)
Definition calls (tr : list Event) : list Ext :=
  flat_map (fun ev => match ev with Called e => [e] | Logged _ => [] end) tr.

(** The test of the ['pending'] listener before it executes. *)
Definition passes_gate (o : Opportunity) : bool :=
  isProfitable o && (AI_THRESHOLD <? aiScore o)%float.

(** ** The quantities the scorer compares *)

(** The price a venue implies: [reserve0 * 1e18 / reserve1], truncated. *)
Definition implied_price (r : Reserves) : Z :=
  Z.quot (reserve0 r * WEI_PER_ETHER) (reserve1 r).

Definition price_difference (rA rB : Reserves) : Z :=
  Z.abs (implied_price rA - implied_price rB).

(** The profit estimate: a hundredth of the price gap, in ether. *)
Definition potential_profit (rA rB : Reserves) : Z :=
  Z.quot (price_difference rA rB) 100 * WEI_PER_ETHER.

(** The two tests of the scorer. *)
Definition gap_exceeds_one_percent (rA rB : Reserves) : bool :=
  Z.quot (implied_price rA) 100 <? price_difference rA rB.

Definition profit_exceeds_floor (rA rB : Reserves) : bool :=
  MIN_PROFIT_THRESHOLD <? potential_profit rA rB.

(** ** Concrete inputs *)

Definition sample_tx : Tx := mkTx "0xaa" (Some "0xdeadbeef").
Definition sample_reserves_A : Reserves := mkReserves 2000 1 0.
Definition sample_reserves_B : Reserves := mkReserves 1000 1 0.
Definition sample_populated : PopulatedTx := mkPopulatedTx "0xloan" "0x12ab".
Definition sample_bundle : SignedBundle := ["0xf86b"].
Definition sample_error : RelayError := mkRelayError "execution reverted" 3.

(** Every collaborator answers: the two venues differ by half the reference
    price, the simulation is clean, the relay acknowledges. *)
Definition happy_oracle : Oracle :=
  fun e =>
    match e as e' return settled (Resp e') with
    | getBlockNumber => fulfilled 100
    | createFlashbotsProvider => fulfilled tt
    | getTransactionCount => fulfilled 7
    | getTransaction h => fulfilled (Some (mkTx h (Some "0xdeadbeef")))
    | getReserves venue =>
        fulfilled (if String.eqb venue DEX_A_PAIR_ADDRESS
                   then sample_reserves_A else sample_reserves_B)
    | populateRequestFlashLoan _ _ _ => fulfilled sample_populated
    | signBundle _ _ _ => fulfilled sample_bundle
    | simulate _ _ => fulfilled (mkSimulationResult None)
    | sendBundle _ _ => fulfilled tt
    end.

(** The same, with another answer to [simulate]. *)
Definition with_simulation (res : SimulationResult) (env : Oracle) : Oracle :=
  fun e =>
    match e as e' return settled (Resp e') -> settled (Resp e') with
    | simulate _ _ => fun _ => fulfilled res
    | _ => fun d => d
    end (env e).

(** The same, with another answer to [getReserves]. *)
Definition with_reserves (res : string -> settled Reserves) (env : Oracle)
  : Oracle :=
  fun e =>
    match e as e' return settled (Resp e') -> settled (Resp e') with
    | getReserves venue => fun _ => res venue
    | _ => fun d => d
    end (env e).

(** The same, with another answer to [getTransaction]. *)
Definition with_transaction (res : option Tx) (env : Oracle) : Oracle :=
  fun e =>
    match e as e' return settled (Resp e') -> settled (Resp e') with
    | getTransaction _ => fun _ => fulfilled res
    | _ => fun d => d
    end (env e).

(** The same, with another transaction count. *)
Definition with_count (c : Z) (env : Oracle) : Oracle :=
  fun e =>
    match e as e' return settled (Resp e') -> settled (Resp e') with
    | getTransactionCount => fun _ => fulfilled c
    | _ => fun d => d
    end (env e).

(** An initialized executor tracking nonce [n]; every draw of
    [Math.random()] is [x]. *)
Definition ready_world (n : Z) (x : float) : World :=
  mkWorld true (num n) (fun _ => x) 0.

(** A relay whose simulation rejects the bundle. *)
Definition rejecting_oracle : Oracle :=
  with_simulation (mkSimulationResult (Some sample_error)) happy_oracle.

(** A chain client whose read of the venue [venue] fails. *)
Definition failing_venue (venue : string) : Oracle :=
  with_reserves
    (fun v => if String.eqb v venue then rejected "timeout"
              else fulfilled sample_reserves_A)
    happy_oracle.


(** One handler run to its end: the hash, then its eight requests settled
    (seven when the simulation rejects). *)
Definition one_submission : list Label :=
  PendingHash "0xaa" :: repeat (Settle 0 happy_oracle) 8.
Definition one_rejection : list Label :=
  PendingHash "0xaa" :: repeat (Settle 0 rejecting_oracle) 7.



(** ** Observations on the requests of the loop *)

Section EveryCall.
Variable Q : Trigger -> World -> Ext -> Prop.

(** [every_call p t w]: [p] is the rest of a segment that was started by
    [t] and has reached the world [w]; the request that ends this segment,
    and the request that ends every later segment of [p] whatever the world
    it resumes in, satisfies [Q] of what started the segment and of the
    world in which the request is made. *)
Fixpoint every_call {A : Type} (p : Prog A) (t : Trigger) (w : World)
  : Prop :=
  match p with
  | Ret _ => True
  | Throw _ => True
  | Await e k =>
      Q t w e /\
      forall (r : settled (Resp e)) (w' : World),
        every_call (k r) (Settled e r) w'
  | ReadNonce k => every_call (k (nonce w)) t w
  | WriteNonce v k => every_call k t (set_nonce v w)
  | ReadFlashbotsProvider k => every_call (k (flashbotsProvider w)) t w
  | SetFlashbotsProvider k => every_call k t (set_flashbotsProvider w)
  | MathRandom k => every_call (k (draw w)) t (advance w)
  | ConsoleLog _ k => every_call k t w
  end.

Definition paused_calls_ok {A : Type} (p : Paused A) : Prop :=
  match p with
  | Waiting e k =>
      forall (r : settled (Resp e)) (w : World),
        every_call (k r) (Settled e r) w
  | _ => True
  end.

Definition task_calls_ok (task : Task) : Prop :=
  match task with
  | Suspended e k =>
      forall (r : settled (Resp e)) (w : World),
        every_call (k r) (Settled e r) w
  | _ => True
  end.
End EveryCall.

(** What a trigger delivered, when it is the answer to one of the requests
    of the submission path. *)
Definition delivered_transaction (t : Trigger) : option PopulatedTx :=
  match t with
  | Started => None
  | Settled e r =>
      match e as e' return settled (Resp e') -> option PopulatedTx with
      | populateRequestFlashLoan _ _ _ => fun r' =>
          match r' with fulfilled x => Some x | rejected _ => None end
      | _ => fun _ => None
      end r
  end.

Definition delivered_block (t : Trigger) : option Z :=
  match t with
  | Started => None
  | Settled e r =>
      match e as e' return settled (Resp e') -> option Z with
      | getBlockNumber => fun r' =>
          match r' with fulfilled x => Some x | rejected _ => None end
      | _ => fun _ => None
      end r
  end.

Definition delivered_simulation (t : Trigger)
  : option (SignedBundle * Z * SimulationResult) :=
  match t with
  | Started => None
  | Settled e r =>
      match e as e' return settled (Resp e')
                           -> option (SignedBundle * Z * SimulationResult) with
      | simulate b blk => fun r' =>
          match r' with
          | fulfilled x => Some (b, blk, x)
          | rejected _ => None
          end
      | _ => fun _ => None
      end r
  end.

(** The loan requests: the target token, between ten ether and the cap. *)
Definition loan_request_ok (t : Trigger) (w : World) (e : Ext) : Prop :=
  match e with
  | populateRequestFlashLoan token amount _ =>
      token = TARGET_TOKEN_ADDRESS /\
      parseEther_int 10 <= amount <= MAX_LOAN_WEI
  | _ => True
  end.

(** The submission path: a bundle is signed over the transaction just built,
    with the nonce tracked at that moment and the fixed gas limit; it is
    simulated for the block after the one just reported; it is sent right
    after its own clean simulation, for the same block. *)
Definition submission_path (t : Trigger) (w : World) (e : Ext) : Prop :=
  match e with
  | signBundle transaction n gasLimit =>
      delivered_transaction t = Some transaction /\
      n = nonce w /\ gasLimit = GAS_LIMIT
  | simulate _ targetBlock =>
      exists blockNumber,
        delivered_block t = Some blockNumber /\ targetBlock = blockNumber + 1
  | sendBundle b targetBlock =>
      exists res,
        delivered_simulation t = Some (b, targetBlock, res) /\
        error res = None
  | _ => True
  end.

(** A suspended task's request is in the trace. *)
Definition called_in (tr : list Event) (task : Task) : Prop :=
  match task with
  | Suspended e _ => In (Called e) tr
  | _ => True
  end.

(** The conditions under which a handler, run alone on the hash [txHash]
    from the world [w] against [env], hands a bundle to the relay. *)
Definition submits (txHash : string) (env : Oracle) (w : World)
  (b : SignedBundle) (blk : Z) : Prop :=
  exists tx rA rB transaction blockNumber res,
    env (getTransaction txHash) = fulfilled (Some tx) /\
    lacks_data tx = false /\
    env (getReserves DEX_A_PAIR_ADDRESS) = fulfilled rA /\
    env (getReserves DEX_B_PAIR_ADDRESS) = fulfilled rB /\
    reserve1 rA <> 0 /\ reserve1 rB <> 0 /\
    gap_exceeds_one_percent rA rB = true /\
    profit_exceeds_floor rA rB = true /\
    (AI_THRESHOLD <? draw w * 0.4 + 0.6)%float = true /\
    flashbotsProvider w = true /\
    nonce w <> undefined /\
    env (populateRequestFlashLoan TARGET_TOKEN_ADDRESS
           (loanAmount (potential_profit rA rB)) (tx_data tx))
    = fulfilled transaction /\
    env (signBundle transaction (nonce w) GAS_LIMIT) = fulfilled b /\
    env getBlockNumber = fulfilled blockNumber /\
    blk = blockNumber + 1 /\
    env (simulate b blk) = fulfilled res /\
    error res = None.

(** ** Startup *)

(** The executor as its constructor leaves it: no relay session, no nonce. *)
Definition fresh_executor (draws : nat -> float) : World :=
  mkWorld false undefined draws 0.

(** The lines [ProductionMEVBot] and the entry point write to the logger,
    by what they report: the three lines of the banner are one entry, and so
    are the two lines of a fatal failure. *)
Inductive LoggerLine : Type :=
| LoggerBanner
| LoggerStartingApiServer
| LoggerStartingBot
| LoggerBotCreated
| LoggerBotInitialized
| LoggerFatalStartup (msg : string).

(** How the entry point ends: the process monitors, or exits with a code. *)
Inductive Boot : Type :=
| Monitoring (m : Machine)
| Exited (code : Z).

Record Startup : Type := mkStartup {
  boot : Boot;
  startup_events : list Event;
  logger_lines : list LoggerLine
}.

(** [main()] of the entry point, with [ProductionMEVBot]'s constructor,
    [initialize()] and [startMempoolMonitoring()] in line: the API server is
    started, then the bot is built, initialized and set to monitor; any
    failure on the way is logged and ends the process with code 1.
    [apiServerStart] is the outcome of [apiServer.start()], whose module is
    not part of the sources; [botConstructed] is the outcome of
    [new ProductionMEVBot()], which builds the providers, the wallet and the
    contract from the environment and throws on a malformed key or address.
    In [initialize] the relay signer is built right before the relay
    session, and a failure of either is the failure of
    [createFlashbotsProvider]. *)
Definition main (apiServerStart botConstructed : settled unit) (env : Oracle)
  (draws : nat -> float) : Startup :=
  match apiServerStart with
  | rejected reason =>
      mkStartup (Exited 1) []
        [LoggerBanner; LoggerStartingApiServer; LoggerFatalStartup reason]
  | fulfilled _ =>
      match botConstructed with
      | rejected reason =>
          mkStartup (Exited 1) []
            [LoggerBanner; LoggerStartingApiServer; LoggerStartingBot;
             LoggerFatalStartup reason]
      | fulfilled _ =>
          let r := exec initialize env (fresh_executor draws) in
          match outcome r with
          | Threw reason =>
              mkStartup (Exited 1) (events r)
                [LoggerBanner; LoggerStartingApiServer; LoggerStartingBot;
                 LoggerBotCreated; LoggerFatalStartup reason]
          | Returned _ =>
              match startMonitoring (final r) with
              | Some m =>
                  mkStartup (Monitoring m) (events r)
                    [LoggerBanner; LoggerStartingApiServer; LoggerStartingBot;
                     LoggerBotCreated; LoggerBotInitialized]
              | None =>
                  mkStartup (Exited 1) (events r)
                    [LoggerBanner; LoggerStartingApiServer; LoggerStartingBot;
                     LoggerBotCreated; LoggerBotInitialized;
                     LoggerFatalStartup "Flashbots executor not initialized."]
              end
          end
      end
  end.

(** The requests of the submission path. *)
Definition on_submission_path (e : Ext) : bool :=
  match e with
  | populateRequestFlashLoan _ _ _ => true
  | signBundle _ _ _ => true
  | getBlockNumber => true
  | simulate _ _ => true
  | sendBundle _ _ => true
  | _ => false
  end.

(** No segment touches the relay session. *)
Definition keeps_session (t : Trigger) (w0 w : World) : Prop :=
  flashbotsProvider w = flashbotsProvider w0.

(** A chain client whose transaction count cannot be read. *)
Definition failing_count (reason : string) (env : Oracle) : Oracle :=
  fun e =>
    match e as e' return settled (Resp e') -> settled (Resp e') with
    | getTransactionCount => fun _ => rejected reason
    | _ => fun d => d
    end (env e).

(** ** The health check *)

(** The check numbers logged by the health check, in order. *)
Definition monitor_lines (tr : list Event) : list Z :=
  flat_map (fun ev => match ev with
                      | Logged (LogMonitorAlive c) => [c]
                      | _ => []
                      end) tr.

Fixpoint count_ticks (ls : list Label) : nat :=
  match ls with
  | [] => O
  | Tick :: ls' => S (count_ticks ls')
  | _ :: ls' => count_ticks ls'
  end.

(** [p] never writes the health check's line, whatever it reads and
    whatever it is answered. *)
Fixpoint no_monitor_line {A : Type} (p : Prog A) : Prop :=
  match p with
  | Ret _ => True
  | Throw _ => True
  | Await e k => forall r, no_monitor_line (k r)
  | ReadNonce k => forall v, no_monitor_line (k v)
  | WriteNonce _ k => no_monitor_line k
  | ReadFlashbotsProvider k => forall b, no_monitor_line (k b)
  | SetFlashbotsProvider k => no_monitor_line k
  | MathRandom k => forall x, no_monitor_line (k x)
  | ConsoleLog l k =>
      match l with LogMonitorAlive _ => False | _ => True end /\
      no_monitor_line k
  end.

Definition task_no_monitor_line (task : Task) : Prop :=
  match task with
  | Suspended e k => forall r, no_monitor_line (k r)
  | _ => True
  end.

(** A chain client that cannot fetch a transaction. *)
Definition failing_fetch (reason : string) (env : Oracle) : Oracle :=
  fun e =>
    match e as e' return settled (Resp e') -> settled (Resp e') with
    | getTransaction _ => fun _ => rejected reason
    | _ => fun d => d
    end (env e).

(** Two ticks around a pending hash. *)
Definition two_ticks : list Label := [Tick; PendingHash "0xaa"; Tick].

(** ** Tactics for symbolic execution *)

(** Membership in an explicit list of events, case by case. *)
Ltac in_cases H :=
  repeat (cbn [In emit events] in H;
          match type of H with
          | _ \/ _ => destruct H as [H | H]
          | False => contradiction
          end).

(** Settle, one after the other, the requests a run makes. *)
Ltac settle_in H env :=
  cbn in H;
  repeat match type of H with
         | context [match env ?e with _ => _ end] =>
             let E := fresh "E" in
             destruct (env e) eqn:E; cbn in H
         | context [match error ?r with _ => _ end] =>
             let E := fresh "Err" in
             destruct (error r) eqn:E; cbn in H
         end.

Ltac settle env :=
  cbn;
  repeat match goal with
         | |- context [match env ?e with _ => _ end] =>
             let E := fresh "E" in
             destruct (env e) eqn:E; cbn
         | |- context [match error ?r with _ => _ end] =>
             let E := fresh "Err" in
             destruct (error r) eqn:E; cbn
         end.

(** Run a program segment by segment, on every answer. *)
Ltac seg_crush :=
  repeat (cbn;
          match goal with
          | |- _ /\ _ => split
          | |- forall _, _ => intro
          | |- context [match ?r with fulfilled _ => _ | rejected _ => _ end] =>
              destruct r
          | |- context [match ?o with Some _ => _ | None => _ end] =>
              destruct o
          | |- context [if ?b then _ else _] => destruct b eqn:?
          | |- _ = _ => reflexivity
          end).

(** Run a program request by request, on every answer. *)
Ltac call_crush :=
  repeat (cbn;
          match goal with
          | |- _ /\ _ => split
          | |- forall _, _ => intro
          | |- True => exact I
          | |- context [match ?r with fulfilled _ => _ | rejected _ => _ end] =>
              destruct r
          | |- context [match ?o with Some _ => _ | None => _ end] =>
              destruct o eqn:?
          | |- context [if ?b then _ else _] => destruct b eqn:?
          end).

(** * Properties *)

Unset Implicit Arguments.

(** ** Loan sizing *)

Lemma MAX_LOAN_WEI_value : MAX_LOAN_WEI = 10 ^ 23.
Proof. reflexivity. Qed.

Lemma loanAmount_min (p : Z) : loanAmount p = Z.min (p * 10) MAX_LOAN_WEI.
Proof.
  unfold loanAmount, BigNumber.gt, BigNumber.mul.
  destruct (Z.ltb_spec MAX_LOAN_WEI (p * 10)); lia.
Qed.

Lemma loanAmount_le_cap (p : Z) : loanAmount p <= MAX_LOAN_WEI.
Proof. rewrite loanAmount_min. lia. Qed.

Lemma loanAmount_capped (p : Z) :
  MAX_LOAN_WEI < p * 10 -> loanAmount p = MAX_LOAN_WEI.
Proof. intros H. rewrite loanAmount_min. lia. Qed.

Lemma loanAmount_pos (p : Z) : 0 < p -> 0 < loanAmount p.
Proof.
  intros H. rewrite loanAmount_min, MAX_LOAN_WEI_value.
  apply Z.min_glb_lt; lia.
Qed.

Lemma loanAmount_mono (p1 p2 : Z) :
  p1 <= p2 -> loanAmount p1 <= loanAmount p2.
Proof. intros H. rewrite !loanAmount_min. lia. Qed.

Lemma MIN_PROFIT_THRESHOLD_pos : 0 < MIN_PROFIT_THRESHOLD.
Proof. reflexivity. Qed.

(** Half an ether of profit gives a loan of five ether; twenty thousand ether
    of profit gives the cap of a hundred thousand. *)
Example loanAmount_scenarios :
  loanAmount (parseEther_int 1 / 2) = parseEther_int 5 /\
  loanAmount (parseEther_int 20000) = parseEther_int 100000.
Proof. split; reflexivity. Qed.

(** ** The scorer *)

Lemma bn_div_nonzero (a b : Z) :
  b <> 0 -> bn_div a b = Ret (Z.quot a b).
Proof.
  intros H. unfold bn_div, BigNumber.div.
  destruct (Z.eqb_spec b 0); [contradiction | reflexivity].
Qed.

Lemma bn_div_zero (a : Z) : bn_div a 0 = Throw "division-by-zero".
Proof. reflexivity. Qed.

(** The scorer on two fetched reserve states with non-zero second reserves:
    two requests, then the comparison. *)
Lemma analyzeOpportunity_fetched (tx : Tx) (env : Oracle) (w : World)
  (rA rB : Reserves) :
  env (getReserves DEX_A_PAIR_ADDRESS) = fulfilled rA ->
  env (getReserves DEX_B_PAIR_ADDRESS) = fulfilled rB ->
  reserve1 rA <> 0 -> reserve1 rB <> 0 ->
  exec (analyzeOpportunity tx) env w =
  emit (Called (getReserves DEX_A_PAIR_ADDRESS))
    (emit (Called (getReserves DEX_B_PAIR_ADDRESS))
       (if gap_exceeds_one_percent rA rB && profit_exceeds_floor rA rB
        then mkRun (Returned (mkOpportunity true (potential_profit rA rB)
                                (draw w * 0.4 + 0.6)%float))
                   (advance w) []
        else mkRun (Returned no_opportunity) w [])).
Proof.
  intros EA EB NA NB.
  unfold analyzeOpportunity. cbn. rewrite EA, EB. cbn.
  rewrite (bn_div_nonzero _ _ NA). cbn.
  rewrite (bn_div_nonzero _ _ NB). cbn.
  unfold gap_exceeds_one_percent, profit_exceeds_floor, potential_profit,
    price_difference, implied_price, BigNumber.gt, BigNumber.abs,
    BigNumber.sub, BigNumber.mul, parseEther_int.
  change WEI_PER_ETHER with 1000000000000000000.
  change MIN_PROFIT_THRESHOLD with 50000000000000000.
  destruct (_ <? _); [ | reflexivity ]. cbn.
  destruct (_ <? _); reflexivity.
Qed.

(** Whatever the collaborators answer, an opportunity the scorer marks
    profitable carries a profit above the floor. *)
Lemma analyzeOpportunity_profitable_above_floor (tx : Tx) (env : Oracle)
  (w : World) (o : Opportunity) :
  outcome (exec (analyzeOpportunity tx) env w) = Returned o ->
  isProfitable o = true ->
  MIN_PROFIT_THRESHOLD < estimatedProfit o.
Proof.
  intros Hout Hprof.
  destruct (env (getReserves DEX_A_PAIR_ADDRESS)) as [rA | eA] eqn:EA;
  destruct (env (getReserves DEX_B_PAIR_ADDRESS)) as [rB | eB] eqn:EB.
  - destruct (Z.eq_dec (reserve1 rA) 0) as [ZA | NA].
    { unfold analyzeOpportunity in Hout. cbn in Hout.
      rewrite EA, EB in Hout. cbn in Hout.
      rewrite ZA, bn_div_zero in Hout. discriminate. }
    destruct (Z.eq_dec (reserve1 rB) 0) as [ZB | NB].
    { unfold analyzeOpportunity in Hout. cbn in Hout.
      rewrite EA, EB in Hout. cbn in Hout.
      rewrite (bn_div_nonzero _ _ NA), ZB in Hout. cbn in Hout.
      discriminate. }
    rewrite (analyzeOpportunity_fetched tx env w rA rB EA EB NA NB) in Hout.
    destruct (gap_exceeds_one_percent rA rB); cbn in Hout;
      [ destruct (profit_exceeds_floor rA rB) eqn:PF; cbn in Hout | ];
      injection Hout as <-; try discriminate.
    cbn. apply Z.ltb_lt. exact PF.
  - unfold analyzeOpportunity in Hout. cbn in Hout.
    rewrite ?EA, ?EB in Hout; cbn in Hout; rewrite ?EA, ?EB in Hout; cbn in Hout.
    injection Hout as <-. discriminate.
  - unfold analyzeOpportunity in Hout. cbn in Hout.
    rewrite ?EA, ?EB in Hout; cbn in Hout; rewrite ?EA, ?EB in Hout; cbn in Hout.
    injection Hout as <-. discriminate.
  - unfold analyzeOpportunity in Hout. cbn in Hout.
    rewrite ?EA, ?EB in Hout; cbn in Hout; rewrite ?EA, ?EB in Hout; cbn in Hout.
    injection Hout as <-. discriminate.
Qed.

(** The one loan request of [executeFlashLoan] asks for [loanAmount] of the
    target token, with the triggering transaction's data. *)
Lemma executeFlashLoan_request (tx : Tx) (p : Z) (env : Oracle) (w : World)
  (token : string) (amount : Z) (data : option string) :
  In (Called (populateRequestFlashLoan token amount data))
     (events (exec (executeFlashLoan tx p) env w)) ->
  token = TARGET_TOKEN_ADDRESS /\ amount = loanAmount p /\ data = tx_data tx.
Proof.
  intros H. unfold executeFlashLoan in H. cbn in H.
  destruct (flashbotsProvider w); destruct (nonce w); cbn in H;
    try contradiction;
    settle_in H env; in_cases H; try discriminate;
    injection H as <- <- <-; auto.
Qed.

(** C4. The amount of the flash loan is [min (estimatedProfit * 10) cap]:
    it equals the cap as soon as ten times the profit exceeds it, never
    exceeds the cap, and is positive for every profit above the floor, which
    is the case of every opportunity the scorer marks profitable; the amount
    [executeFlashLoan] asks the contract for is that amount. *)
Theorem loan_amount_is_capped_product :
  (forall p : Z, loanAmount p = Z.min (p * 10) MAX_LOAN_WEI) /\
  (forall p : Z, MAX_LOAN_WEI < p * 10 -> loanAmount p = MAX_LOAN_WEI) /\
  (forall p : Z, loanAmount p <= MAX_LOAN_WEI) /\
  (forall p : Z, MIN_PROFIT_THRESHOLD < p -> 0 < loanAmount p) /\
  (forall (tx : Tx) (env : Oracle) (w : World) (o : Opportunity),
      outcome (exec (analyzeOpportunity tx) env w) = Returned o ->
      isProfitable o = true ->
      0 < loanAmount (estimatedProfit o) <= MAX_LOAN_WEI) /\
  (forall (tx : Tx) (p : Z) (env : Oracle) (w : World)
          (token : string) (amount : Z) (data : option string),
      In (Called (populateRequestFlashLoan token amount data))
         (events (exec (executeFlashLoan tx p) env w)) ->
      amount = Z.min (p * 10) MAX_LOAN_WEI).
Proof.
  split; [ exact loanAmount_min | ].
  split; [ exact loanAmount_capped | ].
  split; [ exact loanAmount_le_cap | ].
  split.
  { intros p Hp. apply loanAmount_pos.
    pose proof MIN_PROFIT_THRESHOLD_pos. lia. }
  split.
  { intros tx env w o Hout Hprof. split.
    - apply loanAmount_pos.
      pose proof (analyzeOpportunity_profitable_above_floor _ _ _ _ Hout Hprof).
      pose proof MIN_PROFIT_THRESHOLD_pos. lia.
    - apply loanAmount_le_cap. }
  intros tx p env w token amount data H.
  apply executeFlashLoan_request in H. destruct H as (_ & -> & _).
  apply loanAmount_min.
Qed.

(** A profit above the floor, ten times which exceeds the cap; the scorer's
    verdict on the sample venues; the request of a run on them. *)
Lemma loan_amount_is_capped_product_witness :
  loanAmount 20000000000000000000000 = MAX_LOAN_WEI /\
  0 < loanAmount 500000000000000000 /\
  0 < loanAmount (10 ^ 37) <= MAX_LOAN_WEI /\
  MAX_LOAN_WEI = Z.min (10 ^ 37 * 10) MAX_LOAN_WEI.
Proof.
  destruct loan_amount_is_capped_product as (_ & Hcap & _ & Hpos & Hpipe & Hreq).
  split; [ apply Hcap; reflexivity | ].
  split; [ apply Hpos; reflexivity | ].
  split.
  - apply (Hpipe sample_tx happy_oracle (ready_world 7 0.9%float)
             (mkOpportunity true (10 ^ 37) (0.9 * 0.4 + 0.6)%float));
      reflexivity.
  - apply (Hreq sample_tx (10 ^ 37) happy_oracle (ready_world 7 0.9%float)
             TARGET_TOKEN_ADDRESS MAX_LOAN_WEI (Some "0xdeadbeef")).
    vm_compute. right. left. reflexivity.
Defined.

(** C10. The loan amount depends on the estimated profit alone (two runs of
    [executeFlashLoan] on the same profit ask for the same amount, whatever
    the transaction, the collaborators and the executor's state), is monotone
    in it, and is the cap for every profit from a tenth of the cap on. *)
Theorem loan_amount_monotone :
  (forall (tx tx' : Tx) (p : Z) (env env' : Oracle) (w w' : World)
          (token token' : string) (amount amount' : Z)
          (data data' : option string),
      In (Called (populateRequestFlashLoan token amount data))
         (events (exec (executeFlashLoan tx p) env w)) ->
      In (Called (populateRequestFlashLoan token' amount' data'))
         (events (exec (executeFlashLoan tx' p) env' w')) ->
      amount = amount') /\
  (forall p1 p2 : Z,
      p1 <= p2 ->
      Z.min (p1 * 10) MAX_LOAN_WEI <= Z.min (p2 * 10) MAX_LOAN_WEI /\
      loanAmount p1 <= loanAmount p2) /\
  (forall p : Z, MAX_LOAN_WEI / 10 <= p -> loanAmount p = MAX_LOAN_WEI).
Proof.
  split.
  { intros tx tx' p env env' w w' token token' amount amount' data data' H H'.
    apply executeFlashLoan_request in H, H'.
    destruct H as (_ & -> & _), H' as (_ & -> & _). reflexivity. }
  split.
  { intros p1 p2 H. split; [ lia | apply loanAmount_mono; exact H ]. }
  intros p H. rewrite loanAmount_min.
  rewrite MAX_LOAN_WEI_value in *.
  change (10 ^ 23 / 10) with (10 ^ 22) in H.
  change (10 ^ 23) with (10 ^ 22 * 10). lia.
Qed.

Lemma loan_amount_monotone_witness :
  MAX_LOAN_WEI = MAX_LOAN_WEI /\
  loanAmount 500000000000000000 <= loanAmount 20000000000000000000000 /\
  loanAmount (10 ^ 22) = MAX_LOAN_WEI.
Proof.
  destruct loan_amount_monotone as (Hdet & Hmono & Hcap).
  split.
  - apply (Hdet sample_tx (mkTx "0xbb" (Some "0x00")) (10 ^ 37)
             happy_oracle happy_oracle
             (ready_world 7 0.9%float) (ready_world 9 0.95%float)
             TARGET_TOKEN_ADDRESS TARGET_TOKEN_ADDRESS
             MAX_LOAN_WEI MAX_LOAN_WEI (Some "0xdeadbeef") (Some "0x00"));
      vm_compute; right; left; reflexivity.
  - split.
    + apply Hmono. lia.
    + apply Hcap. vm_compute. discriminate.
Defined.

(** ** Composition of runs *)


(** A run of [bind p f] is a run of [p] followed, when [p] returns, by a run
    of [f] from where [p] ended. *)
Lemma exec_bind {A B : Type} (p : Prog A) (f : A -> Prog B)
  (env : Oracle) (w : World) :
  exec (bind p f) env w =
  match outcome (exec p env w) with
  | Returned a =>
      after (events (exec p env w)) (exec (f a) env (final (exec p env w)))
  | Threw err =>
      mkRun (Threw err) (final (exec p env w)) (events (exec p env w))
  end.
Proof.
  revert w.
  induction p as [a | err | e k IH | k IH | v k IH | k IH | k IH | k IH
                  | l k IH]; intros w; cbn.
  - destruct (exec (f a) env w); reflexivity.
  - reflexivity.
  - rewrite IH. destruct (outcome (exec (k (env e)) env w)); reflexivity.
  - apply IH.
  - apply IH.
  - apply IH.
  - apply IH.
  - apply IH.
  - rewrite IH. destruct (outcome (exec k env w)); reflexivity.
Qed.

(** ** Startup and resync *)

(** [initialize()] on a fresh executor, when the chain client and the relay
    answer: the relay session exists and the nonce is the reported count. *)
Lemma initialize_ready (env : Oracle) (w : World) (blk c : Z) :
  env getBlockNumber = fulfilled blk ->
  env createFlashbotsProvider = fulfilled tt ->
  env getTransactionCount = fulfilled c ->
  outcome (exec initialize env w) = Returned tt /\
  flashbotsProvider (final (exec initialize env w)) = true /\
  nonce (final (exec initialize env w)) = num c /\
  startMonitoring (final (exec initialize env w))
  = Some (monitoring (final (exec initialize env w))).
Proof.
  intros Hb Hf Hc. unfold initialize, startMonitoring. cbn.
  rewrite Hb. cbn. rewrite Hf. cbn. rewrite Hc. cbn.
  repeat split.
Qed.

Lemma exec_periodicResync (env : Oracle) (w : World) :
  exec periodicResync env w =
  match env getTransactionCount with
  | fulfilled c =>
      mkRun (Returned tt)
            (if is_undefined (nonce w) || js_gt c (nonce w)
             then set_nonce (num c) w else w)
            [Called getTransactionCount]
  | rejected reason => mkRun (Threw reason) w [Called getTransactionCount]
  end.
Proof.
  unfold periodicResync. cbn.
  destruct (env getTransactionCount) as [c | reason]; cbn;
    [ destruct (is_undefined (nonce w) || js_gt c (nonce w)) | ];
    reflexivity.
Qed.

(** C7. Resync on a tracked value [n] and a reported count [c]: the value
    stays [n] when [c <= n], becomes exactly [c] when [c > n], and is never
    lowered. *)
Theorem resync_never_regresses :
  forall (env : Oracle) (w : World) (n c : Z),
    nonce w = num n ->
    env getTransactionCount = fulfilled c ->
    let w' := final (exec periodicResync env w) in
    (c <= n -> nonce w' = num n) /\
    (n < c -> nonce w' = num c) /\
    (exists n', nonce w' = num n' /\ n <= n') /\
    outcome (exec periodicResync env w) = Returned tt.
Proof.
  intros env w n c Hn Hc. cbn zeta.
  rewrite exec_periodicResync, Hc, Hn. cbn.
  destruct (Z.ltb_spec n c) as [Hlt | Hge]; cbn.
  - repeat split; try lia; try reflexivity.
    exists c. split; [ reflexivity | lia ].
  - rewrite Hn. repeat split; try lia; try reflexivity.
    exists n. split; [ reflexivity | lia ].
Qed.

(** Tracked 7: a reported 5 leaves 7, a reported 12 gives 12. *)
Lemma resync_never_regresses_witness :
  nonce (final (exec periodicResync (with_count 5 happy_oracle)
                  (ready_world 7 0.9%float))) = num 7 /\
  nonce (final (exec periodicResync (with_count 12 happy_oracle)
                  (ready_world 7 0.9%float))) = num 12.
Proof.
  split.
  - apply (resync_never_regresses (with_count 5 happy_oracle)
             (ready_world 7 0.9%float) 7 5); [ reflexivity | reflexivity | lia ].
  - apply (resync_never_regresses (with_count 12 happy_oracle)
             (ready_world 7 0.9%float) 7 12); [ reflexivity | reflexivity | lia ].
Defined.


(** ** The simulation gate *)

(** C5. When the simulation result carries an error, the attempt hands no
    bundle to the relay and leaves the executor's state (the nonce with it)
    as it found it; and once the simulation has been asked and has answered,
    the attempt logs the failure and returns normally instead of throwing. *)
Theorem simulation_gate :
  forall (tx : Tx) (p : Z) (env : Oracle) (w : World),
    (forall b blk res, env (simulate b blk) = fulfilled res ->
                       error res <> None) ->
    let r := exec (executeFlashLoan tx p) env w in
    (forall b blk, ~ In (Called (sendBundle b blk)) (events r)) /\
    final r = w /\
    nonce (final r) = nonce w /\
    (forall b blk res,
        In (Called (simulate b blk)) (events r) ->
        env (simulate b blk) = fulfilled res ->
        outcome r = Returned tt /\
        exists err, error res = Some err /\
                    In (Logged (LogSimulationFailed (message err))) (events r)).
Proof.
  intros tx p env w Hsim. cbn zeta.
  assert (Hw : final (exec (executeFlashLoan tx p) env w) = w /\
               (forall b blk, ~ In (Called (sendBundle b blk))
                                 (events (exec (executeFlashLoan tx p) env w))) /\
    (forall b blk res,
        In (Called (simulate b blk)) (events (exec (executeFlashLoan tx p) env w)) ->
        env (simulate b blk) = fulfilled res ->
        outcome (exec (executeFlashLoan tx p) env w) = Returned tt /\
        exists err, error res = Some err /\
                    In (Logged (LogSimulationFailed (message err))) (events (exec (executeFlashLoan tx p) env w)))).
  { unfold executeFlashLoan. cbn.
    destruct (flashbotsProvider w); destruct (nonce w); cbn.
    all: settle env.
    all: try match goal with
             | H : ?f (simulate _ _) = fulfilled ?r, He : error ?r = None |- _ =>
                 apply Hsim in H; contradiction
             end.
    all: split; [ reflexivity | ].
    all: split; [ intros b blk H; in_cases H; discriminate | ].
    all: intros b blk res H HE; in_cases H; try discriminate.
    all: injection H as <- <-.
    all: match goal with
         | H1 : ?f ?e = rejected _, H2 : ?f ?e = fulfilled _ |- _ =>
             rewrite H2 in H1; discriminate
         | H1 : ?f ?e = fulfilled ?x, H2 : ?f ?e = fulfilled ?y |- _ =>
             rewrite H2 in H1; injection H1 as <-
         end.
    all: split; [ reflexivity | ].
    all: eexists; split; [ eassumption | ].
    all: cbn; do 5 right; left; reflexivity. }
  destruct Hw as (Hw & Hsend & Hret).
  split; [ exact Hsend | ].
  split; [ exact Hw | ].
  split; [ rewrite Hw; reflexivity | exact Hret ].
Qed.

(** The relay rejects the simulation of the sample bundle: nothing is sent,
    the nonce stays 7, the attempt returns. *)
Lemma simulation_gate_witness :
  final (exec (executeFlashLoan sample_tx (10 ^ 17)) rejecting_oracle
              (ready_world 7 0.9%float)) = ready_world 7 0.9%float /\
  outcome (exec (executeFlashLoan sample_tx (10 ^ 17)) rejecting_oracle
                (ready_world 7 0.9%float)) = Returned tt.
Proof.
  assert (H : forall b blk res,
             rejecting_oracle (simulate b blk) = fulfilled res ->
             error res <> None).
  { intros b blk res E. injection E as <-. discriminate. }
  destruct (simulation_gate sample_tx (10 ^ 17) rejecting_oracle
              (ready_world 7 0.9%float) H) as (_ & Hw & _ & Hret).
  split; [ exact Hw | ].
  apply (Hret sample_bundle 101 (mkSimulationResult (Some sample_error))).
  - vm_compute. do 4 right. left. reflexivity.
  - reflexivity.
Defined.

(** ** Failed venue reads *)

(** C6. When the read of either venue's reserves fails, the scorer returns
    the opportunity [{isProfitable: false, estimatedProfit: 0, aiScore: 0}];
    it does not throw, and it changes nothing. *)
Theorem failed_fetch_is_no_opportunity :
  forall (tx : Tx) (env : Oracle) (w : World),
    (exists reason, env (getReserves DEX_A_PAIR_ADDRESS) = rejected reason) \/
    (exists reason, env (getReserves DEX_B_PAIR_ADDRESS) = rejected reason) ->
    let r := exec (analyzeOpportunity tx) env w in
    outcome r = Returned (mkOpportunity false 0 0%float) /\
    final r = w /\
    events r = [Called (getReserves DEX_A_PAIR_ADDRESS);
                Called (getReserves DEX_B_PAIR_ADDRESS)].
Proof.
  intros tx env w H. cbn zeta. unfold analyzeOpportunity. cbn.
  destruct H as [[reason H] | [reason H]]; rewrite H; cbn.
  - destruct (env (getReserves DEX_B_PAIR_ADDRESS)); cbn; repeat split.
  - destruct (env (getReserves DEX_A_PAIR_ADDRESS)); cbn; repeat split.
Qed.

Lemma failed_fetch_is_no_opportunity_witness :
  outcome (exec (analyzeOpportunity sample_tx) (failing_venue DEX_B_PAIR_ADDRESS) (ready_world 7 0.9%float)) = Returned (mkOpportunity false 0 0%float) /\
  outcome (exec (analyzeOpportunity sample_tx) (failing_venue DEX_A_PAIR_ADDRESS) (ready_world 7 0.9%float)) = Returned (mkOpportunity false 0 0%float).
Proof.
  split.
  - apply (failed_fetch_is_no_opportunity sample_tx (failing_venue DEX_B_PAIR_ADDRESS) (ready_world 7 0.9%float)).
    right. exists "timeout". reflexivity.
  - apply (failed_fetch_is_no_opportunity sample_tx (failing_venue DEX_A_PAIR_ADDRESS) (ready_world 7 0.9%float)).
    left. exists "timeout". reflexivity.
Defined.

(** ** The pending-hash handler *)

(** C8. When the fetched transaction is absent or has no payload data the
    handler returns at once: the fetch is its only request, it logs nothing,
    throws nothing and changes nothing.  Otherwise it goes on with the scorer
    on the fetched transaction, whose two venue reads follow the fetch. *)
Theorem pending_hash_without_payload_is_dropped :
  forall (txHash : string) (env : Oracle) (w : World),
    let r := exec (onPending txHash) env w in
    (env (getTransaction txHash) = fulfilled None ->
       r = mkRun (Returned tt) w [Called (getTransaction txHash)]) /\
    (forall tx, env (getTransaction txHash) = fulfilled (Some tx) ->
       lacks_data tx = true ->
       r = mkRun (Returned tt) w [Called (getTransaction txHash)]) /\
    (forall tx, env (getTransaction txHash) = fulfilled (Some tx) ->
       lacks_data tx = false ->
       r = emit (Called (getTransaction txHash))
             (exec (o <- analyzeOpportunity tx ;; onScored tx o) env w) /\
       exists rest,
         events r = Called (getTransaction txHash)
                    :: Called (getReserves DEX_A_PAIR_ADDRESS)
                    :: Called (getReserves DEX_B_PAIR_ADDRESS) :: rest).
Proof.
  intros txHash env w. cbn zeta. unfold onPending. cbn.
  split; [ | split ].
  - intros H. rewrite H. reflexivity.
  - intros tx H L. rewrite H. cbn. rewrite L. reflexivity.
  - intros tx H L. rewrite H. cbn. rewrite L.
    split; [ reflexivity | ].
    unfold analyzeOpportunity. cbn. eexists. reflexivity.
Qed.

Lemma pending_hash_without_payload_is_dropped_witness :
  exec (onPending "0xaa") (with_transaction None happy_oracle)
       (ready_world 7 0.9%float)
  = mkRun (Returned tt) (ready_world 7 0.9%float)
          [Called (getTransaction "0xaa")] /\
  exec (onPending "0xaa")
       (with_transaction (Some (mkTx "0xaa" (Some ""))) happy_oracle)
       (ready_world 7 0.9%float)
  = mkRun (Returned tt) (ready_world 7 0.9%float)
          [Called (getTransaction "0xaa")] /\
  exists rest,
    events (exec (onPending "0xaa") happy_oracle (ready_world 7 0.9%float))
    = Called (getTransaction "0xaa")
      :: Called (getReserves DEX_A_PAIR_ADDRESS)
      :: Called (getReserves DEX_B_PAIR_ADDRESS) :: rest.
Proof.
  split; [ | split ].
  - apply (pending_hash_without_payload_is_dropped "0xaa"
             (with_transaction None happy_oracle) (ready_world 7 0.9%float)).
    reflexivity.
  - apply (pending_hash_without_payload_is_dropped "0xaa"
             (with_transaction (Some (mkTx "0xaa" (Some ""))) happy_oracle)
             (ready_world 7 0.9%float)) with (tx := mkTx "0xaa" (Some ""));
      reflexivity.
  - apply (pending_hash_without_payload_is_dropped "0xaa" happy_oracle
             (ready_world 7 0.9%float)) with (tx := sample_tx);
      reflexivity.
Defined.

(** ** The confidence gate *)

Lemma onScored_rejected (tx : Tx) (o : Opportunity) (env : Oracle) (w : World) :
  passes_gate o = false ->
  outcome (exec (onScored tx o) env w) = Returned tt /\
  final (exec (onScored tx o) env w) = w /\
  calls (events (exec (onScored tx o) env w)) = [].
Proof.
  unfold passes_gate, onScored. intros H.
  destruct (isProfitable o); cbn [andb] in H; [ rewrite H | ]; cbn;
    repeat split.
Qed.

Lemma onScored_accepted (tx : Tx) (o : Opportunity) (env : Oracle) (w : World) :
  passes_gate o = true ->
  exec (onScored tx o) env w =
  emit (Logged (LogOpportunity (estimatedProfit o) (aiScore o)))
       (exec (executeFlashLoan tx (estimatedProfit o)) env w).
Proof.
  unfold passes_gate, onScored. intros H.
  apply andb_prop in H. destruct H as [-> H]. rewrite H. reflexivity.
Qed.

Lemma executeFlashLoan_ready_calls (tx : Tx) (p : Z) (env : Oracle) (w : World) :
  flashbotsProvider w = true -> nonce w <> undefined ->
  exists rest,
  calls (events (exec (executeFlashLoan tx p) env w)) =
  populateRequestFlashLoan TARGET_TOKEN_ADDRESS (loanAmount p) (tx_data tx) :: rest.
Proof.
  intros Hfb Hn. unfold executeFlashLoan. cbn. rewrite Hfb.
  destruct (nonce w); [ contradiction | | ]; cbn; eexists; reflexivity.
Qed.

(** C3. A scored opportunity goes on to bundle construction (the loan
    request is made) exactly when it is profitable and its score is strictly
    above 0.85; otherwise the listener makes no request, changes nothing and
    returns.  A profitable opportunity scored exactly 0.85 is dropped; one
    scored 0.851 goes on. *)
Theorem confidence_gate :
  (forall (tx : Tx) (o : Opportunity) (env : Oracle) (w : World),
      flashbotsProvider w = true -> nonce w <> undefined ->
      (In (populateRequestFlashLoan TARGET_TOKEN_ADDRESS
             (loanAmount (estimatedProfit o)) (tx_data tx))
          (calls (events (exec (onScored tx o) env w)))
       <->
       isProfitable o = true /\ (AI_THRESHOLD <? aiScore o)%float = true)) /\
  (forall (tx : Tx) (o : Opportunity) (env : Oracle) (w : World),
      ~ (isProfitable o = true /\ (AI_THRESHOLD <? aiScore o)%float = true) ->
      calls (events (exec (onScored tx o) env w)) = [] /\
      final (exec (onScored tx o) env w) = w /\
      outcome (exec (onScored tx o) env w) = Returned tt) /\
  (forall (tx : Tx) (p : Z) (env : Oracle) (w : World),
      calls (events (exec (onScored tx (mkOpportunity true p 0.85%float))
                          env w)) = []) /\
  (forall (tx : Tx) (p : Z) (env : Oracle) (w : World),
      flashbotsProvider w = true -> nonce w <> undefined ->
      In (populateRequestFlashLoan TARGET_TOKEN_ADDRESS (loanAmount p)
            (tx_data tx))
         (calls (events (exec (onScored tx (mkOpportunity true p 0.851%float))
                              env w)))).
Proof.
  assert (Hgate : forall o, passes_gate o = true <->
            isProfitable o = true /\ (AI_THRESHOLD <? aiScore o)%float = true).
  { intros o. unfold passes_gate. apply andb_true_iff. }
  assert (Hfwd : forall tx o env w,
             flashbotsProvider w = true -> nonce w <> undefined ->
             passes_gate o = true ->
             In (populateRequestFlashLoan TARGET_TOKEN_ADDRESS
                   (loanAmount (estimatedProfit o)) (tx_data tx))
                (calls (events (exec (onScored tx o) env w)))).
  { intros tx o env w Hfb Hn Hp.
    rewrite (onScored_accepted tx o env w Hp). cbn [emit events calls flat_map app].
    destruct (executeFlashLoan_ready_calls tx (estimatedProfit o) env w Hfb Hn)
      as [rest Hrest].
    unfold calls in Hrest. rewrite Hrest. left. reflexivity. }
  split; [ | split; [ | split ] ].
  - intros tx o env w Hfb Hn. rewrite <- Hgate. split.
    + intros Hin. destruct (passes_gate o) eqn:Hp; [ reflexivity | ].
      destruct (onScored_rejected tx o env w Hp) as (_ & _ & Hc).
      rewrite Hc in Hin. contradiction.
    + apply Hfwd; assumption.
  - intros tx o env w Hno. rewrite <- Hgate in Hno.
    destruct (passes_gate o) eqn:Hp; [ contradiction Hno; reflexivity | ].
    destruct (onScored_rejected tx o env w Hp) as (Ho & Hw & Hc).
    auto.
  - intros tx p env w.
    apply (onScored_rejected tx (mkOpportunity true p 0.85%float) env w).
    reflexivity.
  - intros tx p env w Hfb Hn.
    apply (Hfwd tx (mkOpportunity true p 0.851%float) env w Hfb Hn).
    reflexivity.
Qed.

Lemma confidence_gate_witness :
  In (populateRequestFlashLoan TARGET_TOKEN_ADDRESS (loanAmount (10 ^ 17))
        (tx_data sample_tx))
     (calls (events (exec (onScored sample_tx
                             (mkOpportunity true (10 ^ 17) 0.851%float))
                          happy_oracle (ready_world 7 0.9%float)))) /\
  calls (events (exec (onScored sample_tx
                         (mkOpportunity true (10 ^ 17) 0.6%float))
                      happy_oracle (ready_world 7 0.9%float))) = [].
Proof.
  destruct confidence_gate as (_ & Hrej & _ & Hacc).
  split.
  - apply Hacc; [ reflexivity | discriminate ].
  - apply Hrej. cbn. intros [_ H]. discriminate H.
Defined.


(** ** The nonce in the event loop *)

(** A segment that satisfies [every_segment] ends in a world related to its
    start, and leaves a continuation that satisfies it again. *)
Lemma every_segment_seg (R : Trigger -> World -> World -> Prop) {A : Type}
  (p : Prog A) (t : Trigger) (w0 w : World) :
  every_segment R p t w0 w ->
  R t w0 (seg_world (seg p w)) /\ paused_ok R (paused (seg p w)).
Proof.
  revert w.
  induction p as [a | err | e k IH | k IH | v k IH | k IH | k IH | k IH
                  | l k IH]; intros w H; cbn in *;
    try (apply IH, H); try (split; [ exact H | exact I ]).
  exact H.
Qed.


(** Both handlers keep the nonce discipline, segment after segment. *)
Lemma periodicResync_disciplined (w : World) :
  every_segment nonce_discipline periodicResync Started w w.
Proof.
  unfold periodicResync. cbn. split; [reflexivity|]. intros r w'. destruct r; cbn; [|reflexivity].
  destruct w' as [fb v rd rn].
  destruct v as [ | n | ]; cbn; unfold resynced; cbn; try reflexivity.
  destruct (n <? x) eqn:E; cbn; unfold resynced; cbn; rewrite E; reflexivity.
Qed.

Lemma onPending_disciplined (txHash : string) (w : World) :
  every_segment nonce_discipline (onPending txHash) Started w w.
Proof.
  unfold onPending, analyzeOpportunity, onScored, executeFlashLoan, bn_div, BigNumber.div.
  seg_crush.
Qed.


Lemma task_of_ok (R : Trigger -> World -> World -> Prop) (p : Paused unit) :
  paused_ok R p -> task_ok R (task_of p).
Proof. destruct p; intros H; exact H. Qed.

Lemma replace_nth_Forall {X : Type} (P : X -> Prop) (i : nat) (x : X)
  (l : list X) :
  Forall P l -> P x -> Forall P (replace_nth i x l).
Proof.
  intros Hl Hx. revert i.
  induction Hl as [ | y l Hy Hl IH ]; intros i; cbn.
  - destruct i; constructor.
  - destruct i; cbn; constructor; auto.
Qed.

Lemma nth_error_Forall {X : Type} (P : X -> Prop) (i : nat) (x : X)
  (l : list X) :
  Forall P l -> nth_error l i = Some x -> P x.
Proof.
  intros Hl Hi. apply nth_error_In in Hi.
  rewrite Forall_forall in Hl. apply Hl, Hi.
Qed.

Lemma spawn_disciplined (p : Prog unit) (m : Machine) (pre : list Event)
  (hc : Z) :
  (forall w, every_segment nonce_discipline p Started w w) ->
  pool_ok (pool m) ->
  pool_ok (pool (spawn p m pre hc)) /\
  nonce_discipline Started (world m) (world (spawn p m pre hc)).
Proof.
  intros Hp Hm.
  destruct (every_segment_seg nonce_discipline p Started (world m) (world m)
              (Hp (world m))) as [HR Hk].
  unfold spawn; cbn. split; [ | exact HR ].
  apply Forall_app. split; [ exact Hm | ].
  constructor; [ apply task_of_ok, Hk | constructor ].
Qed.

(** One turn of the loop keeps the pool disciplined and moves the nonce as
    its trigger allows. *)
Lemma step_disciplined (m : Machine) (l : Label) (m' : Machine) :
  pool_ok (pool m) -> step m l = Some m' ->
  pool_ok (pool m') /\
  nonce_discipline (trigger_of m l) (world m) (world m').
Proof.
  intros Hm Hs. unfold step in Hs.
  destruct (exited m); [ discriminate | ].
  destruct l as [txHash | | i env].
  - injection Hs as <-.
    apply spawn_disciplined; [ apply onPending_disciplined | exact Hm ].
  - injection Hs as <-.
    apply spawn_disciplined; [ apply periodicResync_disciplined | exact Hm ].
  - unfold trigger_of.
    destruct (nth_error (pool m) i) as [ [e k | | err] | ] eqn:Hi;
      try discriminate.
    injection Hs as <-. cbn.
    pose proof (nth_error_Forall _ _ _ _ Hm Hi) as Hk. cbn in Hk.
    destruct (every_segment_seg nonce_discipline (k (env e))
                (Settled e (env e)) (world m) (world m) (Hk _ _))
      as [HR Hk'].
    split; [ | exact HR ].
    apply replace_nth_Forall; [ exact Hm | apply task_of_ok, Hk' ].
Qed.

Lemma nonce_le_refl (v : jsnum) : nonce_le v v.
Proof. destruct v; cbn; auto. lia. Qed.

Lemma nonce_le_trans (a b c : jsnum) :
  nonce_le a b -> nonce_le b c -> nonce_le a c.
Proof. destruct a, b, c; cbn; intros; auto; try contradiction. lia. Qed.

Lemma nonce_le_incr (v : jsnum) : nonce_le v (js_incr v).
Proof. destruct v; cbn; auto. lia. Qed.

Lemma nonce_le_resynced (c : Z) (v : jsnum) : nonce_le v (resynced c v).
Proof.
  destruct v as [ | n | ]; unfold resynced; cbn; auto.
  destruct (Z.ltb_spec n c); cbn; lia.
Qed.

Lemma nonce_discipline_le (t : Trigger) (w0 w : World) :
  nonce_discipline t w0 w -> nonce_le (nonce w0) (nonce w).
Proof.
  destruct t as [ | e r ]; cbn.
  - intros ->. apply nonce_le_refl.
  - destruct e; try (intros ->; apply nonce_le_refl);
      destruct r; intros ->;
      auto using nonce_le_refl, nonce_le_incr, nonce_le_resynced.
Qed.

Lemma run_disciplined (ls : list Label) (m m' : Machine) :
  pool_ok (pool m) -> run m ls = Some m' ->
  pool_ok (pool m') /\ nonce_le (nonce (world m)) (nonce (world m')).
Proof.
  revert m. induction ls as [ | l ls IH ]; intros m Hm Hr; cbn in Hr.
  - injection Hr as <-. split; [ exact Hm | apply nonce_le_refl ].
  - destruct (step m l) as [m1 | ] eqn:Hs; [ | discriminate ].
    destruct (step_disciplined m l m1 Hm Hs) as [Hm1 HR].
    destruct (IH m1 Hm1 Hr) as [Hm' Hle].
    split; [ exact Hm' | ].
    eapply nonce_le_trans; [ exact (nonce_discipline_le _ _ _ HR) | exact Hle ].
Qed.

Lemma reachable_pool_ok (m : Machine) : reachable m -> pool_ok (pool m).
Proof.
  intros (w & m0 & ls & Hstart & Hrun).
  apply (run_disciplined ls m0 m); [ | exact Hrun ].
  unfold startMonitoring in Hstart.
  destruct (flashbotsProvider w); [ | discriminate ].
  injection Hstart as <-. constructor.
Qed.



(** One attempt run alone: the nonce goes up by one when the relay
    acknowledges the bundle, and stays otherwise. *)
Lemma executeFlashLoan_nonce (tx : Tx) (p : Z) (env : Oracle) (w : World)
  (n : Z) :
  nonce w = num n ->
  (forall b blk,
      In (Called (sendBundle b blk)) (events (exec (executeFlashLoan tx p) env w)) ->
      env (sendBundle b blk) = fulfilled tt ->
      nonce (final (exec (executeFlashLoan tx p) env w)) = num (n + 1)) /\
  ((forall b blk,
      In (Called (sendBundle b blk)) (events (exec (executeFlashLoan tx p) env w)) ->
      env (sendBundle b blk) <> fulfilled tt) ->
   nonce (final (exec (executeFlashLoan tx p) env w)) = num n).
Proof.
  intros Hn. unfold executeFlashLoan. cbn. rewrite Hn.
  destruct (flashbotsProvider w); cbn.
  - settle env; rewrite ?Hn; cbn; (split; [ intros b blk H HE | intros H ]);
      try reflexivity; try (in_cases H; discriminate).
    + exfalso. eapply H; [ do 5 right; left; reflexivity | ].
      match goal with
      | E : _ (sendBundle _ _) = fulfilled ?u |- _ => destruct u; exact E
      end.
    + in_cases H; try discriminate. injection H as <- <-.
      match goal with
      | E : _ (sendBundle _ _) = rejected _ |- _ => rewrite HE in E
      end.
      discriminate.
  - split; [ intros b blk [] | intros _; exact Hn ].
Qed.

(** C1. Along every run of the event loop, whatever the order in which
    pending hashes arrive, health checks fire and requests are settled, the
    tracked nonce never decreases.  The turn in which the relay acknowledges
    a bundle raises it by exactly one; a turn in which [sendBundle] fails, or
    in which a simulation result arrives (clean or not), leaves it as it
    was.  For one attempt run alone: the nonce ends one higher when the
    bundle was sent and acknowledged, and unchanged in every other case
    (simulation rejected, a collaborator failed). *)
Theorem nonce_monotonic :
  (forall (m : Machine) (ls : list Label) (m' : Machine),
      reachable m -> run m ls = Some m' ->
      nonce_le (nonce (world m)) (nonce (world m')) /\
      forall n, nonce (world m) = num n ->
                exists n', nonce (world m') = num n' /\ n <= n') /\
  (forall (m : Machine) (i : nat) (env : Oracle) (m' : Machine)
          (b : SignedBundle) (blk : Z) k (n : Z),
      reachable m ->
      nth_error (pool m) i = Some (Suspended (sendBundle b blk) k) ->
      step m (Settle i env) = Some m' ->
      nonce (world m) = num n ->
      nonce (world m') =
      match env (sendBundle b blk) with
      | fulfilled _ => num (n + 1)
      | rejected _ => num n
      end) /\
  (forall (m : Machine) (i : nat) (env : Oracle) (m' : Machine)
          (b : SignedBundle) (blk : Z) k,
      reachable m ->
      nth_error (pool m) i = Some (Suspended (simulate b blk) k) ->
      step m (Settle i env) = Some m' ->
      nonce (world m') = nonce (world m)) /\
  (forall (tx : Tx) (p : Z) (env : Oracle) (w : World) (n : Z),
      nonce w = num n ->
      let r := exec (executeFlashLoan tx p) env w in
      (forall b blk,
          In (Called (sendBundle b blk)) (events r) ->
          env (sendBundle b blk) = fulfilled tt ->
          nonce (final r) = num (n + 1)) /\
      ((forall b blk,
          In (Called (sendBundle b blk)) (events r) ->
          env (sendBundle b blk) <> fulfilled tt) ->
       nonce (final r) = num n)).
Proof.
  split; [ | split; [ | split ] ].
  - intros m ls m' Hm Hr.
    destruct (run_disciplined ls m m' (reachable_pool_ok m Hm) Hr) as [_ Hle].
    split; [ exact Hle | ].
    intros n Hn. rewrite Hn in Hle.
    destruct (nonce (world m')) as [ | n' | ]; cbn in Hle; try contradiction.
    exists n'. split; [ reflexivity | exact Hle ].
  - intros m i env m' b blk k n Hm Hi Hs Hn.
    destruct (step_disciplined m _ m' (reachable_pool_ok m Hm) Hs) as [_ HR].
    unfold trigger_of in HR. rewrite Hi in HR. cbn in HR. rewrite Hn in HR.
    destruct (env (sendBundle b blk)); exact HR.
  - intros m i env m' b blk k Hm Hi Hs.
    destruct (step_disciplined m _ m' (reachable_pool_ok m Hm) Hs) as [_ HR].
    unfold trigger_of in HR. rewrite Hi in HR. exact HR.
  - intros tx p env w n Hn. apply executeFlashLoan_nonce. exact Hn.
Qed.

Lemma monitoring_reachable (w : World) :
  flashbotsProvider w = true -> reachable (monitoring w).
Proof.
  intros H. exists w, (monitoring w), [].
  unfold startMonitoring. rewrite H. split; reflexivity.
Qed.

(** From nonce 7: a handler that submits ends at 8, one whose simulation is
    rejected ends at 7, and an attempt alone that submits ends at 8. *)
Lemma nonce_monotonic_witness :
  (exists n', nonce (world (run_or (monitoring (ready_world 7 0.9%float))
                                   one_submission)) = num n' /\ 7 <= n') /\
  (exists n', nonce (world (run_or (monitoring (ready_world 7 0.9%float))
                                   one_rejection)) = num n' /\ 7 <= n') /\
  nonce (final (exec (executeFlashLoan sample_tx (10 ^ 17)) happy_oracle
                     (ready_world 7 0.9%float))) = num (7 + 1).
Proof.
  destruct nonce_monotonic as (Hrun & _ & _ & Hone).
  split; [ | split ].
  - apply (Hrun (monitoring (ready_world 7 0.9%float)) one_submission);
      [ apply monitoring_reachable; reflexivity
      | vm_compute; reflexivity
      | reflexivity ].
  - apply (Hrun (monitoring (ready_world 7 0.9%float)) one_rejection);
      [ apply monitoring_reachable; reflexivity
      | vm_compute; reflexivity
      | reflexivity ].
  - destruct (Hone sample_tx (10 ^ 17) happy_oracle (ready_world 7 0.9%float)
                7 eq_refl) as [Hsent _].
    apply (Hsent sample_bundle 101).
    + vm_compute. do 5 right. left. reflexivity.
    + reflexivity.
Defined.



(** ** Isolated runs are runs of the loop *)

Lemma replace_nth_middle {X : Type} (l1 l2 : list X) (x y : X) :
  replace_nth (List.length l1) y (l1 ++ x :: l2) = l1 ++ y :: l2.
Proof. induction l1 as [ | h l1 IH ]; cbn; [ | rewrite IH ]; reflexivity. Qed.

Lemma nth_error_middle {X : Type} (l1 l2 : list X) (x : X) :
  nth_error (l1 ++ x :: l2) (List.length l1) = Some x.
Proof. induction l1 as [ | h l1 IH ]; cbn; [ reflexivity | exact IH ]. Qed.

(** The isolated run of a program is the run of its task in the loop when
    nothing else is scheduled until it ends. *)
Lemma exec_is_an_uninterrupted_run (env : Oracle) (p : Prog unit) :
  forall (w : World) (l1 l2 : list Task) (tr : list Event) (hc : Z),
  exists k : nat,
    run (mkMachine (seg_world (seg p w))
                   (l1 ++ task_of (paused (seg p w)) :: l2)
                   (tr ++ seg_events (seg p w)) hc
                   (is_failed (paused (seg p w))))
        (repeat (Settle (List.length l1) env) k)
    = Some (mkMachine (final (exec p env w))
                      (l1 ++ task_of_outcome (outcome (exec p env w)) :: l2)
                      (tr ++ events (exec p env w)) hc
                      (is_threw (outcome (exec p env w)))).
Proof.
  induction p as [a | err | e k IH | k IH | v k IH | k IH | k IH | k IH
                  | l k IH]; intros w l1 l2 tr hc; cbn [seg exec].
  - exists 0%nat. reflexivity.
  - exists 0%nat. reflexivity.
  - destruct (IH (env e) w l1 l2 (tr ++ [Called e]) hc) as [n Hn].
    exists (S n). cbn [repeat run]. unfold step. cbn [exited paused is_failed pool task_of].
    rewrite nth_error_middle. cbn [world trace healthCheckCount seg_world seg_events].
    rewrite replace_nth_middle.
    rewrite Hn. cbn [emit outcome final events]. rewrite <- app_assoc.
    reflexivity.
  - apply IH.
  - apply IH.
  - apply IH.
  - apply IH.
  - apply IH.
  - destruct (IH w l1 l2 (tr ++ [Logged l]) hc) as [n Hn].
    exists n. cbn [seg_emit paused seg_world seg_events emit outcome final events].
    rewrite <- !app_assoc in Hn. exact Hn.
Qed.

(** A job's handler, started by its label and settled without interruption,
    ends where its isolated run ends. *)
Lemma job_is_a_run_of_the_loop (j : Job) (m : Machine) :
  exited m = false ->
  exists (k : nat) (m' : Machine),
    run m (job_label j
           :: repeat (Settle (List.length (pool m)) (job_env j)) k) = Some m' /\
    world m' = final (exec (job_prog j) (job_env j) (world m)) /\
    exited m' = is_threw (outcome (exec (job_prog j) (job_env j) (world m))) /\
    calls (trace m') =
    calls (trace m) ++ calls (events (exec (job_prog j) (job_env j) (world m))).
Proof.
  intros Hm. destruct j as [txHash env | env]; cbn [job_label job_prog job_env].
  - destruct (exec_is_an_uninterrupted_run env (onPending txHash) (world m)
                (pool m) [] (trace m) (healthCheckCount m)) as [k Hk].
    exists k. eexists. split; [ | split; [ | split ] ].
    + cbn [run]. unfold step. rewrite Hm. unfold spawn. exact Hk.
    + reflexivity.
    + reflexivity.
    + cbn [trace]. unfold calls. rewrite flat_map_app. reflexivity.
  - destruct (exec_is_an_uninterrupted_run env periodicResync (world m)
                (pool m) []
                (trace m ++ [Logged (LogMonitorAlive (healthCheckCount m + 1))])
                (healthCheckCount m + 1)) as [k Hk].
    exists k. eexists. split; [ | split; [ | split ] ].
    + cbn [run]. unfold step. rewrite Hm. unfold spawn.
      rewrite <- app_assoc in Hk. exact Hk.
    + reflexivity.
    + reflexivity.
    + cbn [trace]. unfold calls. rewrite !flat_map_app. cbn.
      rewrite app_nil_r. reflexivity.
Qed.

(** ** Handlers run one at a time *)

(** The scorer leaves the executor's fields alone and neither signs nor
    reports a success. *)
Lemma analyzeOpportunity_quiet (tx : Tx) (env : Oracle) (w : World) :
  nonce (final (exec (analyzeOpportunity tx) env w)) = nonce w /\
  flashbotsProvider (final (exec (analyzeOpportunity tx) env w))
  = flashbotsProvider w /\
  forall cur rest,
    submitted_from cur (events (exec (analyzeOpportunity tx) env w) ++ rest)
    = submitted_from cur rest.
Proof.
  unfold analyzeOpportunity, bn_div, BigNumber.div.
  cbn.
  repeat match goal with
         | |- context [match env ?e with _ => _ end] => destruct (env e); cbn
         | |- context [if ?b then _ else _] => destruct b; cbn
         end; repeat split.
Qed.






















(** ** The scorer's verdict *)


Lemma quot_100_lt (a d : Z) : 0 <= a -> (Z.quot a 100 < d <-> a < 100 * d).
Proof.
  intros Ha. rewrite Z.quot_div_nonneg by lia.
  pose proof (Z.div_mod a 100 ltac:(lia)).
  pose proof (Z.mod_pos_bound a 100 ltac:(lia)). lia.
Qed.

(** On two fetched reserve states with non-zero second reserves the scorer
    returns an opportunity.  It is profitable exactly when the price gap
    exceeds a hundredth of venue A's price (truncated, which for a
    non-negative price is the same as exceeding 1% of it) and the profit
    estimate exceeds the floor; a profitable opportunity carries that
    estimate and the score drawn, any other carries profit 0 and score 0. *)
Theorem scorer_verdict :
  forall (tx : Tx) (env : Oracle) (w : World) (rA rB : Reserves),
    env (getReserves DEX_A_PAIR_ADDRESS) = fulfilled rA ->
    env (getReserves DEX_B_PAIR_ADDRESS) = fulfilled rB ->
    reserve1 rA <> 0 -> reserve1 rB <> 0 ->
    exists o,
      outcome (exec (analyzeOpportunity tx) env w) = Returned o /\
      (isProfitable o = true <->
       Z.quot (implied_price rA) 100 < price_difference rA rB /\
       MIN_PROFIT_THRESHOLD < potential_profit rA rB) /\
      (isProfitable o = true ->
       estimatedProfit o = potential_profit rA rB /\
       aiScore o = (draw w * 0.4 + 0.6)%float) /\
      (isProfitable o = false ->
       estimatedProfit o = 0 /\ aiScore o = 0%float) /\
      (0 <= implied_price rA ->
       (Z.quot (implied_price rA) 100 < price_difference rA rB <->
        implied_price rA < 100 * price_difference rA rB)).
Proof.
  intros tx env w rA rB EA EB NA NB.
  rewrite (analyzeOpportunity_fetched tx env w rA rB EA EB NA NB).
  unfold gap_exceeds_one_percent, profit_exceeds_floor.
  destruct (Z.ltb_spec (Z.quot (implied_price rA) 100) (price_difference rA rB))
    as [Hgap | Hgap];
    [ destruct (Z.ltb_spec MIN_PROFIT_THRESHOLD (potential_profit rA rB))
        as [Hfloor | Hfloor] | ];
    cbn; eexists; (split; [ reflexivity | ]); cbn;
    (split; [ split; [ intros H; try discriminate H; auto | intros [H1 H2]; try reflexivity; lia ] | ]);
    (split; [ intros H; try discriminate H; auto | ]);
    (split; [ intros H; try discriminate H; auto | ]);
    intros Hp; apply quot_100_lt; exact Hp.
Qed.

Lemma scorer_verdict_witness :
  exists o,
    outcome (exec (analyzeOpportunity sample_tx) happy_oracle
                  (ready_world 7 0.9%float)) = Returned o /\
    (isProfitable o = true ->
     estimatedProfit o = potential_profit sample_reserves_A sample_reserves_B /\
     aiScore o = (0.9 * 0.4 + 0.6)%float).
Proof.
  destruct (scorer_verdict sample_tx happy_oracle (ready_world 7 0.9%float)
              sample_reserves_A sample_reserves_B eq_refl eq_refl)
    as (o & Ho & _ & Hp & _); [ discriminate | discriminate | ].
  exists o. split; [ exact Ho | exact Hp ].
Defined.
(** ** The requests of the loop *)

Lemma every_call_seg (Q : Trigger -> World -> Ext -> Prop) {A : Type}
  (p : Prog A) (t : Trigger) (w : World) :
  every_call Q p t w ->
  (forall e, In (Called e) (seg_events (seg p w)) ->
             Q t (seg_world (seg p w)) e) /\
  paused_calls_ok Q (paused (seg p w)).
Proof.
  revert w.
  induction p as [a | err | e k IH | k IH | v k IH | k IH | k IH | k IH
                  | l k IH]; intros w H; cbn in *;
    try (apply IH, H); try (split; [ intros e [] | exact I ]).
  - destruct H as [HQ Hk]. split; [ | exact Hk ].
    intros e' [He | []]. injection He as <-. exact HQ.
  - destruct (IH w H) as [HQ Hk]. split; [ | exact Hk ].
    intros e [He | He]; [ discriminate | apply HQ, He ].
Qed.

Lemma task_of_calls_ok (Q : Trigger -> World -> Ext -> Prop)
  (p : Paused unit) :
  paused_calls_ok Q p -> task_calls_ok Q (task_of p).
Proof. destruct p; intros H; exact H. Qed.

Lemma spawn_calls (Q : Trigger -> World -> Ext -> Prop) (p : Prog unit)
  (m : Machine) (pre : list LogLine) (hc : Z) :
  (forall w, every_call Q p Started w) ->
  Forall (task_calls_ok Q) (pool m) ->
  Forall (task_calls_ok Q) (pool (spawn p m (map Logged pre) hc)) /\
  exists new,
    trace (spawn p m (map Logged pre) hc) = trace m ++ new /\
    forall e, In (Called e) new ->
              Q Started (world (spawn p m (map Logged pre) hc)) e.
Proof.
  intros Hp Hm.
  destruct (every_call_seg Q p Started (world m) (Hp (world m))) as [HQ Hk].
  unfold spawn; cbn [pool trace world]. split.
  - apply Forall_app. split; [ exact Hm | ].
    constructor; [ apply task_of_calls_ok, Hk | constructor ].
  - eexists. split; [ reflexivity | ].
    intros e He. apply in_app_or in He. destruct He as [He | He].
    + apply in_map_iff in He. destruct He as (l & Hl & _). discriminate.
    + apply HQ, He.
Qed.

(** One turn: the requests it adds to the trace satisfy [Q] of the turn's
    trigger and of the world the turn ends in. *)
Lemma step_calls (Q : Trigger -> World -> Ext -> Prop)
  (m : Machine) (l : Label) (m' : Machine) :
  (forall txHash w, every_call Q (onPending txHash) Started w) ->
  (forall w, every_call Q periodicResync Started w) ->
  Forall (task_calls_ok Q) (pool m) ->
  step m l = Some m' ->
  Forall (task_calls_ok Q) (pool m') /\
  exists new,
    trace m' = trace m ++ new /\
    forall e, In (Called e) new -> Q (trigger_of m l) (world m') e.
Proof.
  intros Hp Hr Hm Hs. unfold step in Hs.
  destruct (exited m); [ discriminate | ].
  destruct l as [txHash | | i env].
  - injection Hs as <-.
    apply (spawn_calls Q (onPending txHash) m [] (healthCheckCount m));
      [ apply Hp | exact Hm ].
  - injection Hs as <-.
    apply (spawn_calls Q periodicResync m
             [LogMonitorAlive (healthCheckCount m + 1)]
             (healthCheckCount m + 1)); [ apply Hr | exact Hm ].
  - unfold trigger_of.
    destruct (nth_error (pool m) i) as [ [e k | | err] | ] eqn:Hi;
      try discriminate.
    injection Hs as <-. cbn [pool trace world].
    pose proof (nth_error_Forall _ _ _ _ Hm Hi) as Hk. cbn in Hk.
    destruct (every_call_seg Q (k (env e)) (Settled e (env e)) (world m)
                (Hk _ _)) as [HQ Hk'].
    split.
    + apply replace_nth_Forall; [ exact Hm | apply task_of_calls_ok, Hk' ].
    + eexists. split; [ reflexivity | exact HQ ].
Qed.

(** Along a run: a property of requests that [Q] implies holds of every
    request in the trace. *)
Lemma run_calls (Q : Trigger -> World -> Ext -> Prop) (P : Ext -> Prop)
  (ls : list Label) :
  (forall t w e, Q t w e -> P e) ->
  (forall txHash w, every_call Q (onPending txHash) Started w) ->
  (forall w, every_call Q periodicResync Started w) ->
  forall m m',
    Forall (task_calls_ok Q) (pool m) ->
    (forall e, In (Called e) (trace m) -> P e) ->
    run m ls = Some m' ->
    Forall (task_calls_ok Q) (pool m') /\
    (forall e, In (Called e) (trace m') -> P e).
Proof.
  intros HQP Hp Hr.
  induction ls as [ | l ls IH ]; intros m m' Hm Ht Hrun; cbn in Hrun.
  - injection Hrun as <-. split; assumption.
  - destruct (step m l) as [m1 | ] eqn:Hs; [ | discriminate ].
    destruct (step_calls Q m l m1 Hp Hr Hm Hs) as (Hm1 & new & Htr & Hnew).
    apply (IH m1 m' Hm1); [ | exact Hrun ].
    intros e He. rewrite Htr in He. apply in_app_or in He.
    destruct He as [He | He]; [ apply Ht, He | eapply HQP, Hnew, He ].
Qed.

(** A profit estimate above the floor is a whole number of ether, and at
    least one. *)
Lemma estimate_above_floor_is_whole (q : Z) :
  BigNumber.gt (BigNumber.mul q WEI_PER_ETHER) MIN_PROFIT_THRESHOLD = true ->
  1 <= q.
Proof.
  unfold BigNumber.gt, BigNumber.mul, WEI_PER_ETHER, MIN_PROFIT_THRESHOLD,
    parseEther_0_05.
  intros H. apply Z.ltb_lt in H. lia.
Qed.

Lemma loanAmount_of_whole_ether (q : Z) :
  1 <= q ->
  parseEther_int 10 <= loanAmount (BigNumber.mul q WEI_PER_ETHER)
  <= MAX_LOAN_WEI.
Proof.
  intros H. rewrite loanAmount_min, MAX_LOAN_WEI_value.
  unfold BigNumber.mul, parseEther_int, WEI_PER_ETHER.
  change (10 ^ 23) with 100000000000000000000000. lia.
Qed.

Lemma onPending_loan_requests (txHash : string) (w : World) :
  every_call loan_request_ok (onPending txHash) Started w.
Proof.
  unfold onPending, analyzeOpportunity, onScored, executeFlashLoan, bn_div,
    BigNumber.div.
  call_crush; try reflexivity;
    match goal with
    | H : BigNumber.gt (BigNumber.mul ?q _) MIN_PROFIT_THRESHOLD = true |- _ =>
        apply estimate_above_floor_is_whole in H;
        apply (loanAmount_of_whole_ether q) in H; apply H
    end.
Qed.

Lemma periodicResync_loan_requests (w : World) :
  every_call loan_request_ok periodicResync Started w.
Proof. unfold periodicResync. call_crush. Qed.

Lemma onPending_submission_path (txHash : string) (w : World) :
  every_call submission_path (onPending txHash) Started w.
Proof.
  unfold onPending, analyzeOpportunity, onScored, executeFlashLoan, bn_div,
    BigNumber.div.
  call_crush; try reflexivity; eexists; split;
    solve [ reflexivity | assumption ].
Qed.

Lemma periodicResync_submission_path (w : World) :
  every_call submission_path periodicResync Started w.
Proof. unfold periodicResync. call_crush. Qed.

Lemma startMonitoring_fresh (w : World) (m0 : Machine) :
  startMonitoring w = Some m0 ->
  m0 = monitoring w /\ flashbotsProvider w = true.
Proof.
  unfold startMonitoring. destruct (flashbotsProvider w); [ | discriminate ].
  intros H. injection H as <-. split; reflexivity.
Qed.

(** X2. Every loan request the running monitor makes, whatever the order
    in which hashes arrive, health checks fire and requests are settled, is
    for the target token and for an amount between ten ether and the cap of
    a hundred thousand ether. *)
Theorem loan_requests_stay_within_bounds :
  forall (m : Machine) (token : string) (amount : Z) (data : option string),
    reachable m ->
    In (Called (populateRequestFlashLoan token amount data)) (trace m) ->
    token = TARGET_TOKEN_ADDRESS /\
    parseEther_int 10 <= amount <= MAX_LOAN_WEI.
Proof.
  intros m token amount data (w & m0 & ls & Hstart & Hrun) Hin.
  apply startMonitoring_fresh in Hstart. destruct Hstart as [-> _].
  destruct (run_calls loan_request_ok
              (fun e => loan_request_ok Started w e) ls
              (fun t w' e H => H)
              onPending_loan_requests periodicResync_loan_requests
              (monitoring w) m (Forall_nil _) (fun e (H : False) => match H with end)
              Hrun) as [_ Hall].
  exact (Hall _ Hin).
Qed.

Lemma seg_waiting_called {A : Type} (p : Prog A) (w : World) :
  match paused (seg p w) with
  | Waiting e _ => In (Called e) (seg_events (seg p w))
  | _ => True
  end.
Proof.
  revert w.
  induction p as [a | err | e k IH | k IH | v k IH | k IH | k IH | k IH
                  | l k IH]; intros w; cbn; try apply IH; try exact I.
  - left. reflexivity.
  - specialize (IH w). destruct (paused (seg k w)); try exact I.
    right. exact IH.
Qed.

Lemma called_in_app (tr new : list Event) (task : Task) :
  called_in tr task -> called_in (tr ++ new) task.
Proof. destruct task; cbn; auto. intros H. apply in_or_app. left. exact H. Qed.

Lemma called_in_task_of (tr pre : list Event) (p : Prog unit) (w : World) :
  called_in (tr ++ pre ++ seg_events (seg p w)) (task_of (paused (seg p w))).
Proof.
  pose proof (seg_waiting_called p w) as H.
  destruct (paused (seg p w)); cbn; try exact I.
  apply in_or_app. right. apply in_or_app. right. exact H.
Qed.

Lemma step_called_in (m : Machine) (l : Label) (m' : Machine) :
  Forall (called_in (trace m)) (pool m) ->
  step m l = Some m' ->
  Forall (called_in (trace m')) (pool m').
Proof.
  intros Hm Hs. unfold step in Hs.
  destruct (exited m); [ discriminate | ].
  destruct l as [txHash | | i env].
  - injection Hs as <-. unfold spawn. cbn [pool trace].
    apply Forall_app. split.
    + eapply Forall_impl; [ | exact Hm ]. intros t. apply called_in_app.
    + constructor; [ apply called_in_task_of | constructor ].
  - injection Hs as <-. unfold spawn. cbn [pool trace].
    apply Forall_app. split.
    + eapply Forall_impl; [ | exact Hm ]. intros t. apply called_in_app.
    + constructor; [ apply called_in_task_of | constructor ].
  - destruct (nth_error (pool m) i) as [ [e k | | err] | ] eqn:Hi;
      try discriminate.
    injection Hs as <-. cbn [pool trace].
    apply replace_nth_Forall.
    + eapply Forall_impl; [ | exact Hm ]. intros t. apply called_in_app.
    + apply (called_in_task_of (trace m) []).
Qed.

Lemma reachable_called_in (m : Machine) :
  reachable m -> Forall (called_in (trace m)) (pool m).
Proof.
  intros (w & m0 & ls & Hstart & Hrun).
  apply startMonitoring_fresh in Hstart. destruct Hstart as [-> _].
  assert (H0 : Forall (called_in (trace (monitoring w))) (pool (monitoring w)))
    by constructor.
  revert H0 Hrun. generalize (monitoring w). clear w.
  induction ls as [ | l ls IH ]; intros m0 H0 Hrun; cbn in Hrun.
  - injection Hrun as <-. exact H0.
  - destruct (step m0 l) as [m1 | ] eqn:Hs; [ | discriminate ].
    apply (IH m1); [ | exact Hrun ].
    apply (step_called_in m0 l m1 H0 Hs).
Qed.

Lemma reachable_submission_path (m : Machine) :
  reachable m -> Forall (task_calls_ok submission_path) (pool m).
Proof.
  intros (w & m0 & ls & Hstart & Hrun).
  apply startMonitoring_fresh in Hstart. destruct Hstart as [-> _].
  apply (run_calls submission_path (fun _ => True) ls (fun _ _ _ _ => I)
           onPending_submission_path periodicResync_submission_path
           (monitoring w) m (Forall_nil _) (fun _ _ => I) Hrun).
Qed.

(** What the trigger of a turn delivered, read back on the turn's label. *)
Lemma delivered_simulation_settle (m : Machine) (l : Label)
  (b : SignedBundle) (blk : Z) (res : SimulationResult) :
  delivered_simulation (trigger_of m l) = Some (b, blk, res) ->
  exists i env k,
    l = Settle i env /\
    nth_error (pool m) i = Some (Suspended (simulate b blk) k) /\
    env (simulate b blk) = fulfilled res.
Proof.
  destruct l as [txHash | | i env]; cbn; try discriminate.
  destruct (nth_error (pool m) i) as [ [e k | | err] | ] eqn:Hi;
    try discriminate.
  destruct e; cbn; try discriminate.
  destruct (env (simulate signedTransactions targetBlock)) as [x | reason]
    eqn:E; try discriminate.
  intros H. injection H as <- <- <-. exists i, env, k. auto.
Qed.

Lemma delivered_block_settle (m : Machine) (l : Label) (n : Z) :
  delivered_block (trigger_of m l) = Some n ->
  exists i env k,
    l = Settle i env /\
    nth_error (pool m) i = Some (Suspended getBlockNumber k) /\
    env getBlockNumber = fulfilled n.
Proof.
  destruct l as [txHash | | i env]; cbn; try discriminate.
  destruct (nth_error (pool m) i) as [ [e k | | err] | ] eqn:Hi;
    try discriminate.
  destruct e; cbn; try discriminate.
  destruct (env getBlockNumber) as [x | reason] eqn:E; try discriminate.
  intros H. injection H as <-. exists i, env, k. auto.
Qed.

Lemma delivered_transaction_settle (m : Machine) (l : Label)
  (ptx : PopulatedTx) :
  delivered_transaction (trigger_of m l) = Some ptx ->
  exists i env token amount data k,
    l = Settle i env /\
    nth_error (pool m) i
    = Some (Suspended (populateRequestFlashLoan token amount data) k) /\
    env (populateRequestFlashLoan token amount data) = fulfilled ptx.
Proof.
  destruct l as [txHash | | i env]; cbn; try discriminate.
  destruct (nth_error (pool m) i) as [ [e k | | err] | ] eqn:Hi;
    try discriminate.
  destruct e; cbn; try discriminate.
  destruct (env (populateRequestFlashLoan token amount data))
    as [x | reason] eqn:E; try discriminate.
  intros H. injection H as <-. exists i, env, token, amount, data, k. auto.
Qed.

(** X3. In the running monitor a bundle is handed to the relay only in the
    turn that delivers a clean simulation of that very bundle for that very
    block, so its simulation is already in the trace; and a simulation is
    asked only in the turn that delivers a block number, for the block after
    it.  Hence every bundle sent was simulated before. *)
Theorem bundles_are_sent_after_their_clean_simulation :
  (forall (m : Machine) (l : Label) (m' : Machine),
      reachable m -> step m l = Some m' ->
      exists new,
        trace m' = trace m ++ new /\
        (forall b blk,
            In (Called (sendBundle b blk)) new ->
            In (Called (simulate b blk)) (trace m) /\
            exists i env k res,
              l = Settle i env /\
              nth_error (pool m) i = Some (Suspended (simulate b blk) k) /\
              env (simulate b blk) = fulfilled res /\
              error res = None) /\
        (forall b blk,
            In (Called (simulate b blk)) new ->
            exists i env k blockNumber,
              l = Settle i env /\
              nth_error (pool m) i = Some (Suspended getBlockNumber k) /\
              env getBlockNumber = fulfilled blockNumber /\
              blk = blockNumber + 1)) /\
  (forall (m : Machine) (b : SignedBundle) (blk : Z),
      reachable m ->
      In (Called (sendBundle b blk)) (trace m) ->
      In (Called (simulate b blk)) (trace m)).
Proof.
  assert (Hstep : forall m l m',
             reachable m -> step m l = Some m' ->
             exists new,
               trace m' = trace m ++ new /\
               (forall b blk,
                   In (Called (sendBundle b blk)) new ->
                   In (Called (simulate b blk)) (trace m) /\
                   exists i env k res,
                     l = Settle i env /\
                     nth_error (pool m) i
                     = Some (Suspended (simulate b blk) k) /\
                     env (simulate b blk) = fulfilled res /\
                     error res = None) /\
               (forall b blk,
                   In (Called (simulate b blk)) new ->
                   exists i env k blockNumber,
                     l = Settle i env /\
                     nth_error (pool m) i = Some (Suspended getBlockNumber k) /\
                     env getBlockNumber = fulfilled blockNumber /\
                     blk = blockNumber + 1)).
  { intros m l m' Hm Hs.
    destruct (step_calls submission_path m l m'
                onPending_submission_path periodicResync_submission_path
                (reachable_submission_path m Hm) Hs) as (_ & new & Htr & Hnew).
    exists new. split; [ exact Htr | split ].
    - intros b blk Hin. destruct (Hnew _ Hin) as (res & Hd & Herr).
      destruct (delivered_simulation_settle m l b blk res Hd)
        as (i & env & k & Hl & Hi & Henv).
      split.
      + apply (nth_error_Forall _ _ _ _ (reachable_called_in m Hm) Hi).
      + exists i, env, k, res. auto.
    - intros b blk Hin. destruct (Hnew _ Hin) as (n & Hd & Hblk).
      destruct (delivered_block_settle m l n Hd)
        as (i & env & k & Hl & Hi & Henv).
      exists i, env, k, n. auto. }
  split; [ exact Hstep | ].
  intros m b blk (w & m0 & ls & Hstart & Hrun).
  assert (H0 : reachable m0) by (exists w, m0, []; auto).
  assert (Ht0 : In (Called (sendBundle b blk)) (trace m0) ->
                In (Called (simulate b blk)) (trace m0)).
  { apply startMonitoring_fresh in Hstart. destruct Hstart as [-> _].
    intros []. }
  clear Hstart. revert m0 H0 Ht0 Hrun.
  induction ls as [ | l ls IH ]; intros m0 H0 Ht0 Hrun; cbn in Hrun.
  - injection Hrun as <-. exact Ht0.
  - destruct (step m0 l) as [m1 | ] eqn:Hs; [ | discriminate ].
    apply (IH m1); [ | | exact Hrun ].
    + destruct H0 as (w0 & mi & ls0 & Hst & Hr0).
      exists w0, mi, (ls0 ++ [l]). split; [ exact Hst | ].
      clear - Hr0 Hs. revert mi Hr0.
      induction ls0 as [ | l0 ls0 IH0 ]; intros mi Hr0; cbn in *.
      * injection Hr0 as ->. rewrite Hs. reflexivity.
      * destruct (step mi l0); [ apply IH0, Hr0 | discriminate ].
    + destruct (Hstep m0 l m1 H0 Hs) as (new & Htr & Hsend & _).
      rewrite Htr. intros Hin. apply in_app_or in Hin.
      apply in_or_app. left.
      destruct Hin as [Hin | Hin]; [ | apply (Hsend _ _ Hin) ].
      apply Ht0 in Hin. exact Hin.
Qed.

Lemma run_snoc (ls : list Label) (l : Label) (m m1 m2 : Machine) :
  run m ls = Some m1 -> step m1 l = Some m2 -> run m (ls ++ [l]) = Some m2.
Proof.
  revert m. induction ls as [ | l0 ls IH ]; intros m Hr Hs; cbn in *.
  - injection Hr as ->. rewrite Hs. reflexivity.
  - destruct (step m l0); [ apply IH; assumption | discriminate ].
Qed.

Lemma reachable_step (m : Machine) (l : Label) (m' : Machine) :
  reachable m -> step m l = Some m' -> reachable m'.
Proof.
  intros (w & m0 & ls & Hstart & Hrun) Hs.
  exists w, m0, (ls ++ [l]). split; [ exact Hstart | ].
  apply (run_snoc ls l m0 m m' Hrun Hs).
Qed.

(** X4. In the running monitor a bundle is signed only in the turn that
    delivers the transaction built by the contract, over that transaction,
    with the nonce tracked during that turn and the gas limit 3,000,000. *)
Theorem bundles_are_signed_with_the_tracked_nonce :
  (forall (m : Machine) (l : Label) (m' : Machine),
      reachable m -> step m l = Some m' ->
      exists new,
        trace m' = trace m ++ new /\
        forall transaction n gasLimit,
          In (Called (signBundle transaction n gasLimit)) new ->
          gasLimit = GAS_LIMIT /\
          n = nonce (world m) /\
          n = nonce (world m') /\
          exists i env token amount data k,
            l = Settle i env /\
            nth_error (pool m) i
            = Some (Suspended (populateRequestFlashLoan token amount data) k) /\
            env (populateRequestFlashLoan token amount data)
            = fulfilled transaction) /\
  (forall (m : Machine) transaction n gasLimit,
      reachable m ->
      In (Called (signBundle transaction n gasLimit)) (trace m) ->
      gasLimit = GAS_LIMIT).
Proof.
  split.
  - intros m l m' Hm Hs.
    destruct (step_calls submission_path m l m'
                onPending_submission_path periodicResync_submission_path
                (reachable_submission_path m Hm) Hs) as (_ & new & Htr & Hnew).
    exists new. split; [ exact Htr | ].
    intros ptx n gas Hin. destruct (Hnew _ Hin) as (Hd & Hn & Hgas).
    destruct (delivered_transaction_settle m l ptx Hd)
      as (i & env & token & amount & data & k & Hl & Hi & Henv).
    destruct (step_disciplined m l m' (reachable_pool_ok m Hm) Hs) as [_ HR].
    subst l. unfold trigger_of in HR. rewrite Hi in HR. cbn in HR.
    assert (HR' : nonce (world m') = nonce (world m)).
    { destruct (env (populateRequestFlashLoan token amount data)); exact HR. }
    split; [ exact Hgas | ].
    split; [ rewrite <- HR'; exact Hn | ].
    split; [ exact Hn | ].
    exists i, env, token, amount, data, k. auto.
  - intros m ptx n gas (w & m0 & ls & Hstart & Hrun) Hin.
    apply startMonitoring_fresh in Hstart. destruct Hstart as [-> _].
    destruct (run_calls submission_path
                (fun e => match e with
                          | signBundle _ _ g => g = GAS_LIMIT
                          | _ => True
                          end) ls
                (fun t w' e =>
                   match e as e0
                         return submission_path t w' e0 ->
                                match e0 with
                                | signBundle _ _ g => g = GAS_LIMIT
                                | _ => True
                                end with
                   | signBundle _ _ _ => fun H => proj2 (proj2 H)
                   | _ => fun _ => I
                   end)
                onPending_submission_path periodicResync_submission_path
                (monitoring w) m (Forall_nil _)
                (fun e (H : False) => match H with end) Hrun) as [_ Hall].
    exact (Hall _ Hin).
Qed.

(** ** One handler from end to end *)

Lemma exec_onPending (txHash : string) (env : Oracle) (w : World) :
  exec (onPending txHash) env w =
  emit (Called (getTransaction txHash))
    match env (getTransaction txHash) with
    | fulfilled (Some tx) =>
        if lacks_data tx then mkRun (Returned tt) w []
        else exec (o <- analyzeOpportunity tx ;; onScored tx o) env w
    | fulfilled None => mkRun (Returned tt) w []
    | rejected reason => mkRun (Threw reason) w []
    end.
Proof.
  unfold onPending. cbn.
  destruct (env (getTransaction txHash)) as [[tx | ] | reason]; cbn;
    [ destruct (lacks_data tx) | | ]; reflexivity.
Qed.

(** The scorer either compares two usable reserve states, or ends after its
    two reads with the zero opportunity or an exception. *)
Lemma analyzeOpportunity_cases (tx : Tx) (env : Oracle) (w : World) :
  (exists rA rB,
      env (getReserves DEX_A_PAIR_ADDRESS) = fulfilled rA /\
      env (getReserves DEX_B_PAIR_ADDRESS) = fulfilled rB /\
      reserve1 rA <> 0 /\ reserve1 rB <> 0) \/
  (exists o,
      exec (analyzeOpportunity tx) env w
      = mkRun o w [Called (getReserves DEX_A_PAIR_ADDRESS);
                   Called (getReserves DEX_B_PAIR_ADDRESS)] /\
      (o = Returned no_opportunity \/ exists err, o = Threw err)).
Proof.
  destruct (env (getReserves DEX_A_PAIR_ADDRESS)) as [rA | eA] eqn:EA;
  destruct (env (getReserves DEX_B_PAIR_ADDRESS)) as [rB | eB] eqn:EB.
  - destruct (Z.eq_dec (reserve1 rA) 0) as [ZA | NA];
      [ | destruct (Z.eq_dec (reserve1 rB) 0) as [ZB | NB] ].
    + right. eexists. unfold analyzeOpportunity. cbn. rewrite EA, EB. cbn.
      rewrite ZA, bn_div_zero. cbn. split; [ reflexivity | ].
      right. eexists. reflexivity.
    + right. eexists. unfold analyzeOpportunity. cbn. rewrite EA, EB. cbn.
      rewrite (bn_div_nonzero _ _ NA), ZB. cbn. split; [ reflexivity | ].
      right. eexists. reflexivity.
    + left. exists rA, rB. auto.
  - right. eexists. unfold analyzeOpportunity. cbn. rewrite EA, EB. cbn.
    split; [ reflexivity | left; reflexivity ].
  - right. eexists. unfold analyzeOpportunity. cbn. rewrite EA. cbn.
    rewrite ?EB. cbn. split; [ reflexivity | left; reflexivity ].
  - right. eexists. unfold analyzeOpportunity. cbn. rewrite EA. cbn.
    rewrite ?EB. cbn. split; [ reflexivity | left; reflexivity ].
Qed.

Lemma executeFlashLoan_sends (tx : Tx) (p : Z) (env : Oracle) (w : World)
  (b : SignedBundle) (blk : Z) :
  In (Called (sendBundle b blk)) (events (exec (executeFlashLoan tx p) env w))
  <->
  exists transaction blockNumber res,
    flashbotsProvider w = true /\
    nonce w <> undefined /\
    env (populateRequestFlashLoan TARGET_TOKEN_ADDRESS (loanAmount p)
           (tx_data tx)) = fulfilled transaction /\
    env (signBundle transaction (nonce w) GAS_LIMIT) = fulfilled b /\
    env getBlockNumber = fulfilled blockNumber /\
    blk = blockNumber + 1 /\
    env (simulate b blk) = fulfilled res /\
    error res = None.
Proof.
  split.
  - intros H. unfold executeFlashLoan in H. cbn in H.
    destruct (flashbotsProvider w) eqn:Hfb;
      destruct (nonce w) as [ | n | ] eqn:Hn; cbn in H; try contradiction;
      settle_in H env; in_cases H; try discriminate.
    all: injection H as <- <-; rewrite ?Hn in *;
      do 3 eexists; repeat split; try eassumption; try reflexivity;
      discriminate.
  - intros (ptx & n & res & Hfb & Hn & Hp & Hs & Hb & -> & Hsim & Herr).
    unfold executeFlashLoan. cbn. rewrite Hfb.
    destruct (nonce w) as [ | v | ] eqn:Hv; [ contradiction | | ]; cbn;
      rewrite Hp; cbn; rewrite ?Hv; rewrite Hs; cbn; rewrite Hb; cbn;
      rewrite Hsim; cbn; rewrite Herr; cbn;
      do 5 right; left; reflexivity.
Qed.

Lemma in_calls (e : Ext) (tr : list Event) :
  In (Called e) tr <-> In e (calls tr).
Proof.
  unfold calls. rewrite in_flat_map. split.
  - intros H. exists (Called e). split; [ exact H | left; reflexivity ].
  - intros (ev & Hev & He). destruct ev; cbn in He; [ | contradiction ].
    destruct He as [-> | []]. exact Hev.
Qed.

Lemma onScored_sends (tx : Tx) (o : Opportunity) (env : Oracle) (w : World)
  (b : SignedBundle) (blk : Z) :
  In (Called (sendBundle b blk)) (events (exec (onScored tx o) env w)) <->
  passes_gate o = true /\
  In (Called (sendBundle b blk))
     (events (exec (executeFlashLoan tx (estimatedProfit o)) env w)).
Proof.
  destruct (passes_gate o) eqn:Hp.
  - rewrite (onScored_accepted tx o env w Hp). cbn. split.
    + intros [H | H]; [ discriminate | auto ].
    + intros [_ H]. right. exact H.
  - destruct (onScored_rejected tx o env w Hp) as (_ & _ & Hc). split.
    + intros H. apply in_calls in H. rewrite Hc in H. contradiction.
    + intros [H _]. discriminate.
Qed.

(** X5. A handler run alone hands a bundle to the relay exactly when: the
    transaction was fetched and has data, both venue reads succeeded with
    non-zero second reserves, the gap exceeds a hundredth of venue A's price
    and the estimate exceeds the floor, the score drawn is above 0.85, the
    executor is initialized, the transaction was built, the bundle signed
    with the tracked nonce, the block number read, and the simulation for
    the next block came back without error. *)
Theorem handler_submits_exactly_when :
  forall (txHash : string) (env : Oracle) (w : World)
         (b : SignedBundle) (blk : Z),
    In (Called (sendBundle b blk)) (events (exec (onPending txHash) env w))
    <-> submits txHash env w b blk.
Proof.
  intros txHash env w b blk. rewrite exec_onPending. split.
  - intros H. cbn [events emit In] in H.
    destruct H as [H | H]; [ discriminate | ].
    destruct (env (getTransaction txHash)) as [[tx | ] | reason] eqn:Etx;
      try contradiction.
    destruct (lacks_data tx) eqn:Hl; [ contradiction | ].
    rewrite exec_bind in H.
    destruct (analyzeOpportunity_cases tx env w)
      as [(rA & rB & EA & EB & NA & NB) | (o & Ho & Hcase)].
    + rewrite (analyzeOpportunity_fetched tx env w rA rB EA EB NA NB) in H.
      destruct (gap_exceeds_one_percent rA rB) eqn:Hgap;
        [ destruct (profit_exceeds_floor rA rB) eqn:Hfloor | ];
        cbn in H;
        (destruct H as [H | [H | H]]; [ discriminate | discriminate | ]);
        apply onScored_sends in H; destruct H as [Hp H];
        try discriminate Hp.
      apply executeFlashLoan_sends in H.
      destruct H as (ptx & n & res & Hfb & Hn & Hpop & Hs & Hb & Hblk
                     & Hsim & Herr).
      unfold passes_gate in Hp. cbn in Hp, Hfb, Hn, Hpop, Hs.
      exists tx, rA, rB, ptx, n, res. repeat split; assumption.
    + rewrite Ho in H. cbn in H.
      destruct Hcase as [-> | [err ->]]; cbn in H.
      * destruct H as [H | [H | H]]; [ discriminate | discriminate | ].
        apply onScored_sends in H. destruct H as [Hp _]. discriminate Hp.
      * destruct H as [H | [H | H]]; [ discriminate | discriminate | ].
        contradiction.
  - intros (tx & rA & rB & ptx & n & res & Etx & Hl & EA & EB & NA & NB
            & Hgap & Hfloor & Hscore & Hfb & Hn & Hpop & Hs & Hb & Hblk
            & Hsim & Herr).
    rewrite Etx, Hl, exec_bind,
      (analyzeOpportunity_fetched tx env w rA rB EA EB NA NB), Hgap, Hfloor.
    cbn. do 3 right. apply onScored_sends. split.
    + unfold passes_gate. cbn. exact Hscore.
    + apply executeFlashLoan_sends. exists ptx, n, res. cbn.
      repeat split; assumption.
Qed.

(** ** More on the scorer *)

Lemma floor_test_is_a_gap_of_100 (rA rB : Reserves) :
  profit_exceeds_floor rA rB = true <-> 100 <= price_difference rA rB.
Proof.
  unfold profit_exceeds_floor, potential_profit, MIN_PROFIT_THRESHOLD,
    parseEther_0_05, WEI_PER_ETHER.
  rewrite Z.ltb_lt.
  assert (Hd : 0 <= price_difference rA rB)
    by (unfold price_difference; apply Z.abs_nonneg).
  rewrite Z.quot_div_nonneg by lia.
  pose proof (Z.div_mod (price_difference rA rB) 100 ltac:(lia)).
  pose proof (Z.mod_pos_bound (price_difference rA rB) 100 ltac:(lia)).
  lia.
Qed.

(** X6. The profit estimate of a profitable opportunity is a whole number
    of ether, at least one, so the loan sized from it is at least ten ether;
    and the floor of 0.05 ether is passed exactly when the price gap is at
    least 100. *)
Theorem profitable_estimate_is_whole_ether :
  (forall (tx : Tx) (env : Oracle) (w : World) (o : Opportunity),
      outcome (exec (analyzeOpportunity tx) env w) = Returned o ->
      isProfitable o = true ->
      exists q,
        1 <= q /\
        estimatedProfit o = q * WEI_PER_ETHER /\
        parseEther_int 10 <= loanAmount (estimatedProfit o) <= MAX_LOAN_WEI) /\
  (forall rA rB : Reserves,
      profit_exceeds_floor rA rB = true <-> 100 <= price_difference rA rB).
Proof.
  split; [ | exact floor_test_is_a_gap_of_100 ].
  intros tx env w o Hout Hprof.
  destruct (analyzeOpportunity_cases tx env w)
    as [(rA & rB & EA & EB & NA & NB) | (o' & Ho & Hcase)].
  - rewrite (analyzeOpportunity_fetched tx env w rA rB EA EB NA NB) in Hout.
    destruct (gap_exceeds_one_percent rA rB);
      [ destruct (profit_exceeds_floor rA rB) eqn:Hfloor | ];
      cbn in Hout; injection Hout as <-; try discriminate Hprof.
    apply floor_test_is_a_gap_of_100 in Hfloor.
    assert (Hq : 1 <= Z.quot (price_difference rA rB) 100).
    { apply Z.quot_le_lower_bound; lia. }
    exists (Z.quot (price_difference rA rB) 100).
    split; [ exact Hq | split; [ reflexivity | ] ].
    apply (loanAmount_of_whole_ether _ Hq).
  - rewrite Ho in Hout. cbn in Hout.
    destruct Hcase as [-> | [err ->]]; [ | discriminate ].
    injection Hout as <-. discriminate Hprof.
Qed.

(** X7. The scorer, whatever it is answered, makes exactly its two venue
    reads (the second even when the first fails) and logs nothing; it leaves
    the relay session and the nonce alone and changes nothing but the random
    generator, from which it draws once, exactly when it returns a profitable
    opportunity. *)
Theorem scorer_only_reads :
  forall (tx : Tx) (env : Oracle) (w : World),
    let r := exec (analyzeOpportunity tx) env w in
    events r = [Called (getReserves DEX_A_PAIR_ADDRESS);
                Called (getReserves DEX_B_PAIR_ADDRESS)] /\
    flashbotsProvider (final r) = flashbotsProvider w /\
    nonce (final r) = nonce w /\
    final r =
    match outcome r with
    | Returned o => if isProfitable o then advance w else w
    | Threw _ => w
    end.
Proof.
  intros tx env w. cbn zeta.
  destruct (analyzeOpportunity_cases tx env w)
    as [(rA & rB & EA & EB & NA & NB) | (o' & Ho & Hcase)].
  - rewrite (analyzeOpportunity_fetched tx env w rA rB EA EB NA NB).
    destruct (gap_exceeds_one_percent rA rB && profit_exceeds_floor rA rB);
      cbn; repeat split.
  - rewrite Ho. cbn. destruct Hcase as [-> | [err ->]]; repeat split.
Qed.

(** ** Startup *)

(** [initialize()] against any collaborators: it returns exactly when its
    three requests are fulfilled, and then the relay session exists and the
    nonce is the reported count; when it throws the nonce is untouched, and
    the relay session exists only if it was the count that failed. *)
Lemma initialize_cases (env : Oracle) (w : World) :
  (exists blk c,
      env getBlockNumber = fulfilled blk /\
      env createFlashbotsProvider = fulfilled tt /\
      env getTransactionCount = fulfilled c /\
      exec initialize env w
      = mkRun (Returned tt) (set_nonce (num c) (set_flashbotsProvider w))
              [Called getBlockNumber; Called createFlashbotsProvider;
               Called getTransactionCount; Logged (LogInitialized c)]) \/
  (exists reason,
      outcome (exec initialize env w) = Threw reason /\
      nonce (final (exec initialize env w)) = nonce w /\
      (env getBlockNumber = rejected reason /\
       final (exec initialize env w) = w /\
       events (exec initialize env w) = [Called getBlockNumber]
       \/
       env createFlashbotsProvider = rejected reason /\
       final (exec initialize env w) = w /\
       events (exec initialize env w)
       = [Called getBlockNumber; Called createFlashbotsProvider]
       \/
       env getTransactionCount = rejected reason /\
       final (exec initialize env w) = set_flashbotsProvider w)).
Proof.
  unfold initialize. cbn.
  destruct (env getBlockNumber) as [blk | r1] eqn:E1; cbn.
  - destruct (env createFlashbotsProvider) as [[] | r2] eqn:E2; cbn.
    + destruct (env getTransactionCount) as [c | r3] eqn:E3; cbn.
      * left. exists blk, c. auto.
      * right. exists r3. repeat split. right. right. split; reflexivity.
    + right. exists r2. repeat split. right. left. repeat split.
  - right. exists r1. repeat split. left. repeat split.
Qed.

(** X8. The entry point reaches monitoring exactly when the API server
    started, the bot was built and the three requests of [initialize()] were
    fulfilled, and then the monitor starts with a relay session, the
    reported count as nonce and no task; in every other case the process
    exits with code 1 after logging the failure, and when the API server or
    the construction of the bot fails no request is made to the chain at
    all. *)
Theorem main_monitors_only_after_startup :
  forall (apiServerStart botConstructed : settled unit) (env : Oracle)
         (draws : nat -> float),
    (forall m,
        boot (main apiServerStart botConstructed env draws) = Monitoring m <->
        apiServerStart = fulfilled tt /\
        botConstructed = fulfilled tt /\
        exists blk c,
          env getBlockNumber = fulfilled blk /\
          env createFlashbotsProvider = fulfilled tt /\
          env getTransactionCount = fulfilled c /\
          m = monitoring (mkWorld true (num c) draws 0)) /\
    ((forall m,
         boot (main apiServerStart botConstructed env draws) <> Monitoring m) ->
     boot (main apiServerStart botConstructed env draws) = Exited 1 /\
     exists reason,
       In (LoggerFatalStartup reason)
          (logger_lines (main apiServerStart botConstructed env draws))) /\
    ((exists reason, apiServerStart = rejected reason) \/
     (exists reason, botConstructed = rejected reason) ->
     startup_events (main apiServerStart botConstructed env draws) = []).
Proof.
  intros api built env draws. unfold main.
  destruct api as [[] | reason0]; [ destruct built as [[] | reason1] | ].
  - destruct (initialize_cases env (fresh_executor draws))
      as [(blk & c & E1 & E2 & E3 & Hr) | (reason & Hout & _)].
    + rewrite Hr. cbn. split; [ | split ].
      * intros m. split.
        -- intros H. injection H as <-.
           split; [ reflexivity | split; [ reflexivity | ] ].
           exists blk, c. auto.
        -- intros (_ & _ & blk' & c' & _ & _ & E3' & ->).
           rewrite E3 in E3'. injection E3' as <-. reflexivity.
      * intros H. exfalso. eapply H. reflexivity.
      * intros [[reason H] | [reason H]]; discriminate H.
    + rewrite Hout. cbn. split; [ | split ].
      * intros m. split; [ discriminate | ].
        intros (_ & _ & blk & c & E1 & E2 & E3 & _).
        unfold initialize in Hout. cbn in Hout.
        rewrite E1 in Hout. cbn in Hout. rewrite E2 in Hout. cbn in Hout.
        rewrite E3 in Hout. cbn in Hout. discriminate Hout.
      * intros _. split; [ reflexivity | ].
        exists reason. cbn. auto 6.
      * intros [[reason' H] | [reason' H]]; discriminate H.
  - cbn. split; [ | split ].
    + intros m. split; [ discriminate | intros (_ & H & _); discriminate H ].
    + intros _. split; [ reflexivity | ]. exists reason1. cbn. auto 6.
    + intros _. reflexivity.
  - cbn. split; [ | split ].
    + intros m. split; [ discriminate | intros [H _]; discriminate H ].
    + intros _. split; [ reflexivity | ]. exists reason0. cbn. auto.
    + intros _. reflexivity.
Qed.

(** ** What stops the process *)

Lemma analyzeOpportunity_throws (tx : Tx) (env : Oracle) (w : World)
  (err : string) :
  outcome (exec (analyzeOpportunity tx) env w) = Threw err ->
  err = "division-by-zero" /\
  exists rA rB,
    env (getReserves DEX_A_PAIR_ADDRESS) = fulfilled rA /\
    env (getReserves DEX_B_PAIR_ADDRESS) = fulfilled rB /\
    (reserve1 rA = 0 \/ reserve1 rB = 0).
Proof.
  intros H.
  destruct (env (getReserves DEX_A_PAIR_ADDRESS)) as [rA | eA] eqn:EA;
  destruct (env (getReserves DEX_B_PAIR_ADDRESS)) as [rB | eB] eqn:EB.
  - destruct (Z.eq_dec (reserve1 rA) 0) as [ZA | NA];
      [ | destruct (Z.eq_dec (reserve1 rB) 0) as [ZB | NB] ].
    + unfold analyzeOpportunity in H. cbn in H. rewrite EA, EB in H.
      cbn in H. rewrite ZA, bn_div_zero in H. cbn in H.
      injection H as <-. split; [ reflexivity | ].
      exists rA, rB. auto.
    + unfold analyzeOpportunity in H. cbn in H. rewrite EA, EB in H.
      cbn in H. rewrite (bn_div_nonzero _ _ NA), ZB in H. cbn in H.
      injection H as <-. split; [ reflexivity | ].
      exists rA, rB. auto.
    + rewrite (analyzeOpportunity_fetched tx env w rA rB EA EB NA NB) in H.
      destruct (gap_exceeds_one_percent rA rB && profit_exceeds_floor rA rB);
        discriminate H.
  - unfold analyzeOpportunity in H. cbn in H. rewrite EA, EB in H.
    discriminate H.
  - unfold analyzeOpportunity in H. cbn in H. rewrite EA in H. cbn in H.
    rewrite ?EB in H. discriminate H.
  - unfold analyzeOpportunity in H. cbn in H. rewrite EA in H. cbn in H.
    rewrite ?EB in H. discriminate H.
Qed.

Lemma executeFlashLoan_throws (tx : Tx) (p : Z) (env : Oracle) (w : World)
  (err : string) :
  outcome (exec (executeFlashLoan tx p) env w) = Threw err ->
  (err = "Executor or nonce not ready." /\
   (flashbotsProvider w = false \/ nonce w = undefined)) \/
  (exists e,
      In (Called e) (events (exec (executeFlashLoan tx p) env w)) /\
      env e = rejected err /\ on_submission_path e = true).
Proof.
  unfold executeFlashLoan. cbn.
  destruct (flashbotsProvider w) eqn:Hfb;
    destruct (nonce w) as [ | n | ] eqn:Hn; cbn;
    try (intros H; injection H as <-; left; auto; fail);
    settle env; intros H; try discriminate H; injection H as <-; right;
    match goal with
    | E : ?f ?e = rejected ?r |- _ =>
        exists e; split; [ cbn; auto 10 | split; [ exact E | reflexivity ] ]
    end.
Qed.

(** X9. A handler of a pending hash throws only for one of four reasons:
    the transaction fetch failed; a fetched venue has a zero second reserve;
    the executor is not initialized; a request of the submission path
    (build, sign, block number, simulate, send) failed.  A failed
    transaction fetch is not recovered: the handler throws with it after
    that single request.  A resync throws exactly when the transaction count
    cannot be read. *)
Theorem handler_throws_only_when :
  (forall (txHash : string) (env : Oracle) (w : World) (err : string),
      outcome (exec (onPending txHash) env w) = Threw err ->
      env (getTransaction txHash) = rejected err \/
      (err = "division-by-zero" /\
       exists rA rB,
         env (getReserves DEX_A_PAIR_ADDRESS) = fulfilled rA /\
         env (getReserves DEX_B_PAIR_ADDRESS) = fulfilled rB /\
         (reserve1 rA = 0 \/ reserve1 rB = 0)) \/
      (err = "Executor or nonce not ready." /\
       (flashbotsProvider w = false \/ nonce w = undefined)) \/
      (exists e,
          In (Called e) (events (exec (onPending txHash) env w)) /\
          env e = rejected err /\ on_submission_path e = true)) /\
  (forall (txHash : string) (env : Oracle) (w : World) (err : string),
      env (getTransaction txHash) = rejected err ->
      exec (onPending txHash) env w
      = mkRun (Threw err) w [Called (getTransaction txHash)]) /\
  (forall (env : Oracle) (w : World) (err : string),
      outcome (exec periodicResync env w) = Threw err <->
      env getTransactionCount = rejected err).
Proof.
  split; [ | split ].
  - intros txHash env w err. rewrite exec_onPending.
    cbn [emit outcome events].
    destruct (env (getTransaction txHash)) as [[tx | ] | reason] eqn:Etx;
      cbn [outcome]; try discriminate.
    + destruct (lacks_data tx); [ discriminate | ].
      rewrite exec_bind.
      destruct (analyzeOpportunity_quiet tx env w) as (HnA & HfA & _).
      destruct (outcome (exec (analyzeOpportunity tx) env w))
        as [o | errA] eqn:HoA; cbn [outcome after events].
      * destruct (passes_gate o) eqn:Hp.
        -- rewrite (onScored_accepted tx o env _ Hp). cbn [emit outcome events].
           intros H. apply executeFlashLoan_throws in H.
           rewrite HfA, HnA in H.
           destruct H as [H | (e & Hin & He & Hpath)];
             [ right; right; left; exact H | ].
           right. right. right. exists e. split; [ | auto ].
           right. apply in_or_app. right. right. exact Hin.
        -- destruct (onScored_rejected tx o env
                       (final (exec (analyzeOpportunity tx) env w)) Hp)
             as (Ho & _). rewrite Ho. discriminate.
      * intros H. injection H as <-.
        right. left. apply (analyzeOpportunity_throws tx env w errA HoA).
    + intros H. injection H as <-. left. reflexivity.
  - intros txHash env w err H. rewrite exec_onPending, H. reflexivity.
  - intros env w err. rewrite exec_periodicResync.
    destruct (env getTransactionCount) as [c | reason]; cbn; split;
      intros H; try discriminate H; injection H as <-; reflexivity.
Qed.

(** X10. A handler that throws stops the process: started by its label
    and settled without interruption it leaves the loop exited, and no
    further pending hash, health check or settlement is taken. *)
Theorem a_throwing_handler_stops_the_loop :
  forall (j : Job) (m : Machine),
    exited m = false ->
    is_threw (outcome (exec (job_prog j) (job_env j) (world m))) = true ->
    exists (k : nat) (m' : Machine),
      run m (job_label j
             :: repeat (Settle (List.length (pool m)) (job_env j)) k)
      = Some m' /\
      exited m' = true /\
      (forall l, step m' l = None) /\
      (forall l ls, run m' (l :: ls) = None).
Proof.
  intros j m Hm Hthrew.
  destruct (job_is_a_run_of_the_loop j m Hm) as (k & m' & Hrun & _ & Hex & _).
  rewrite Hthrew in Hex.
  exists k, m'. split; [ exact Hrun | split; [ exact Hex | ] ].
  assert (Hstep : forall l, step m' l = None).
  { intros l. unfold step. rewrite Hex. reflexivity. }
  split; [ exact Hstep | ].
  intros l ls. cbn. rewrite Hstep. reflexivity.
Qed.

(** ** The executor stays ready *)

Lemma onPending_keeps_session (txHash : string) (w : World) :
  every_segment keeps_session (onPending txHash) Started w w.
Proof.
  unfold onPending, analyzeOpportunity, onScored, executeFlashLoan, bn_div,
    BigNumber.div, keeps_session.
  seg_crush.
Qed.

Lemma periodicResync_keeps_session (w : World) :
  every_segment keeps_session periodicResync Started w w.
Proof. unfold periodicResync, keeps_session. seg_crush. Qed.

Lemma spawn_every_segment (R : Trigger -> World -> World -> Prop)
  (p : Prog unit) (m : Machine) (pre : list Event) (hc : Z) :
  (forall w, every_segment R p Started w w) ->
  Forall (task_ok R) (pool m) ->
  Forall (task_ok R) (pool (spawn p m pre hc)) /\
  R Started (world m) (world (spawn p m pre hc)).
Proof.
  intros Hp Hm.
  destruct (every_segment_seg R p Started (world m) (world m) (Hp (world m)))
    as [HR Hk].
  unfold spawn; cbn [pool world]. split; [ | exact HR ].
  apply Forall_app. split; [ exact Hm | ].
  constructor; [ apply task_of_ok, Hk | constructor ].
Qed.

Lemma step_every_segment (R : Trigger -> World -> World -> Prop)
  (m : Machine) (l : Label) (m' : Machine) :
  (forall txHash w, every_segment R (onPending txHash) Started w w) ->
  (forall w, every_segment R periodicResync Started w w) ->
  Forall (task_ok R) (pool m) ->
  step m l = Some m' ->
  Forall (task_ok R) (pool m') /\ R (trigger_of m l) (world m) (world m').
Proof.
  intros Hp Hr Hm Hs. unfold step in Hs.
  destruct (exited m); [ discriminate | ].
  destruct l as [txHash | | i env].
  - injection Hs as <-. apply spawn_every_segment; [ apply Hp | exact Hm ].
  - injection Hs as <-. apply spawn_every_segment; [ apply Hr | exact Hm ].
  - unfold trigger_of.
    destruct (nth_error (pool m) i) as [ [e k | | err] | ] eqn:Hi;
      try discriminate.
    injection Hs as <-. cbn [pool world].
    pose proof (nth_error_Forall _ _ _ _ Hm Hi) as Hk. cbn in Hk.
    destruct (every_segment_seg R (k (env e)) (Settled e (env e))
                (world m) (world m) (Hk _ _)) as [HR Hk'].
    split; [ | exact HR ].
    apply replace_nth_Forall; [ exact Hm | apply task_of_ok, Hk' ].
Qed.

Lemma run_keeps_session (ls : list Label) :
  forall m m',
    Forall (task_ok keeps_session) (pool m) ->
    run m ls = Some m' ->
    Forall (task_ok keeps_session) (pool m') /\
    flashbotsProvider (world m') = flashbotsProvider (world m).
Proof.
  induction ls as [ | l ls IH ]; intros m m' Hm Hrun; cbn in Hrun.
  - injection Hrun as <-. split; [ exact Hm | reflexivity ].
  - destruct (step m l) as [m1 | ] eqn:Hs; [ | discriminate ].
    destruct (step_every_segment keeps_session m l m1
                onPending_keeps_session periodicResync_keeps_session Hm Hs)
      as [Hm1 HR].
    destruct (IH m1 m' Hm1 Hrun) as [Hm' Hfb].
    split; [ exact Hm' | ]. rewrite Hfb. exact HR.
Qed.

(** X11. Once monitoring has started on an executor with a relay session
    and a numeric nonce, the executor stays so along every run: the session
    is never dropped and the nonce stays a number not below the initial one.
    So an attempt started at any later moment passes its guard, its first
    request is the loan request, and it can throw only because a request of
    the submission path failed. *)
Theorem initialized_monitor_stays_ready :
  forall (w : World) (n : Z) (m0 : Machine) (ls : list Label) (m : Machine),
    startMonitoring w = Some m0 ->
    nonce w = num n ->
    run m0 ls = Some m ->
    flashbotsProvider (world m) = true /\
    (exists n', nonce (world m) = num n' /\ n <= n') /\
    (forall (tx : Tx) (p : Z) (env : Oracle),
        (exists rest,
            calls (events (exec (executeFlashLoan tx p) env (world m)))
            = populateRequestFlashLoan TARGET_TOKEN_ADDRESS (loanAmount p)
                (tx_data tx) :: rest) /\
        (forall err,
            outcome (exec (executeFlashLoan tx p) env (world m)) = Threw err ->
            exists e,
              In (Called e)
                 (events (exec (executeFlashLoan tx p) env (world m))) /\
              env e = rejected err /\ on_submission_path e = true)).
Proof.
  intros w n m0 ls m Hstart Hn Hrun.
  assert (Hreach : reachable m0) by (exists w, m0, []; auto).
  apply startMonitoring_fresh in Hstart. destruct Hstart as [-> Hfb0].
  destruct (run_keeps_session ls (monitoring w) m (Forall_nil _) Hrun)
    as [_ Hfb].
  cbn in Hfb. rewrite Hfb0 in Hfb.
  destruct (run_disciplined ls (monitoring w) m
              (reachable_pool_ok _ Hreach) Hrun) as [_ Hle].
  cbn in Hle. rewrite Hn in Hle.
  destruct (nonce (world m)) as [ | n' | ] eqn:Hn'; cbn in Hle;
    try contradiction.
  split; [ exact Hfb | ].
  split; [ exists n'; auto | ].
  intros tx p env.
  assert (Hdef : nonce (world m) <> undefined) by (rewrite Hn'; discriminate).
  split.
  - apply executeFlashLoan_ready_calls; assumption.
  - intros err Herr. apply executeFlashLoan_throws in Herr.
    destruct Herr as [(_ & [H | H]) | H]; [ | | exact H ].
    + rewrite Hfb in H. discriminate H.
    + contradiction.
Qed.

(** X12. In the running monitor the turn that delivers a transaction count
    to a resync compares it with the nonce tracked at that moment, not at the
    time of the request: from [n] the nonce becomes [max n c] (and stays [n]
    when the read failed).  Two resyncs in a row leave the highest of the
    tracked value and the two counts, whatever their order. *)
Theorem resync_compares_with_the_nonce_at_delivery :
  (forall (m : Machine) (i : nat) (env : Oracle) (m' : Machine) k (n : Z),
      reachable m ->
      nth_error (pool m) i = Some (Suspended getTransactionCount k) ->
      step m (Settle i env) = Some m' ->
      nonce (world m) = num n ->
      nonce (world m') =
      match env getTransactionCount with
      | fulfilled c => num (Z.max n c)
      | rejected _ => num n
      end) /\
  (forall (env1 env2 : Oracle) (w : World) (c1 c2 : Z),
      env1 getTransactionCount = fulfilled c1 ->
      env2 getTransactionCount = fulfilled c2 ->
      nonce (final (exec periodicResync env2
                      (final (exec periodicResync env1 w))))
      = match nonce w with
        | num n => num (Z.max n (Z.max c1 c2))
        | undefined => num (Z.max c1 c2)
        | NaN => NaN
        end).
Proof.
  split.
  - intros m i env m' k n Hm Hi Hs Hn.
    destruct (step_disciplined m _ m' (reachable_pool_ok m Hm) Hs) as [_ HR].
    unfold trigger_of in HR. rewrite Hi in HR. cbn in HR. rewrite Hn in HR.
    destruct (env getTransactionCount) as [c | reason]; [ | exact HR ].
    rewrite HR. unfold resynced. cbn.
    destruct (Z.ltb_spec n c); f_equal; lia.
  - intros env1 env2 w c1 c2 H1 H2.
    rewrite !exec_periodicResync, H1, H2. cbn.
    destruct (nonce w) as [ | n | ] eqn:Hn; cbn.
    + destruct (Z.ltb_spec c1 c2); cbn; f_equal; lia.
    + destruct (Z.ltb_spec n c1); cbn; rewrite ?Hn; cbn.
      * destruct (Z.ltb_spec c1 c2); cbn; f_equal; lia.
      * destruct (Z.ltb_spec n c2); cbn; rewrite ?Hn; f_equal; lia.
    + rewrite Hn. cbn. rewrite Hn. reflexivity.
Qed.

(** ** The health check *)

Lemma no_monitor_line_seg {A : Type} (p : Prog A) (w : World) :
  no_monitor_line p ->
  monitor_lines (seg_events (seg p w)) = [] /\
  match paused (seg p w) with
  | Waiting e k => forall r, no_monitor_line (k r)
  | _ => True
  end.
Proof.
  revert w.
  induction p as [a | err | e k IH | k IH | v k IH | k IH | k IH | k IH
                  | l k IH]; intros w H; cbn in *;
    try (apply IH, H); try (split; [ reflexivity | exact I ]).
  - split; [ reflexivity | exact H ].
  - destruct H as [Hl Hk]. destruct (IH w Hk) as [Hm Hp].
    split; [ | exact Hp ].
    destruct l; try contradiction; exact Hm.
Qed.

Lemma onPending_no_monitor_line (txHash : string) :
  no_monitor_line (onPending txHash).
Proof.
  unfold onPending, analyzeOpportunity, onScored, executeFlashLoan, bn_div,
    BigNumber.div.
  call_crush.
Qed.

Lemma periodicResync_no_monitor_line : no_monitor_line periodicResync.
Proof. unfold periodicResync. call_crush. Qed.

Lemma monitor_lines_app (tr1 tr2 : list Event) :
  monitor_lines (tr1 ++ tr2) = monitor_lines tr1 ++ monitor_lines tr2.
Proof. unfold monitor_lines. apply flat_map_app. Qed.

Lemma step_health_check (m : Machine) (l : Label) (m' : Machine) :
  Forall task_no_monitor_line (pool m) ->
  step m l = Some m' ->
  Forall task_no_monitor_line (pool m') /\
  match l with
  | Tick =>
      healthCheckCount m' = healthCheckCount m + 1 /\
      monitor_lines (trace m')
      = monitor_lines (trace m) ++ [healthCheckCount m + 1]
  | _ =>
      healthCheckCount m' = healthCheckCount m /\
      monitor_lines (trace m') = monitor_lines (trace m)
  end.
Proof.
  intros Hm Hs. unfold step in Hs.
  destruct (exited m); [ discriminate | ].
  destruct l as [txHash | | i env].
  - injection Hs as <-. unfold spawn. cbn [pool trace healthCheckCount].
    destruct (no_monitor_line_seg (onPending txHash) (world m)
                (onPending_no_monitor_line txHash)) as [Hl Hp].
    split.
    + apply Forall_app. split; [ exact Hm | ].
      constructor; [ | constructor ].
      destruct (paused (seg (onPending txHash) (world m))); cbn; auto.
    + split; [ reflexivity | ].
      rewrite !monitor_lines_app, Hl. cbn. rewrite app_nil_r. reflexivity.
  - injection Hs as <-. unfold spawn. cbn [pool trace healthCheckCount].
    destruct (no_monitor_line_seg periodicResync (world m)
                periodicResync_no_monitor_line) as [Hl Hp].
    split.
    + apply Forall_app. split; [ exact Hm | ].
      constructor; [ | constructor ].
      destruct (paused (seg periodicResync (world m))); cbn; auto.
    + split; [ reflexivity | ].
      rewrite !monitor_lines_app, Hl. cbn. reflexivity.
  - destruct (nth_error (pool m) i) as [ [e k | | err] | ] eqn:Hi;
      try discriminate.
    injection Hs as <-. cbn [pool trace healthCheckCount].
    pose proof (nth_error_Forall _ _ _ _ Hm Hi) as Hk. cbn in Hk.
    destruct (no_monitor_line_seg (k (env e)) (world m) (Hk _)) as [Hl Hp].
    split.
    + apply replace_nth_Forall; [ exact Hm | ].
      destruct (paused (seg (k (env e)) (world m))); cbn; auto.
    + split; [ reflexivity | ].
      rewrite monitor_lines_app, Hl, app_nil_r. reflexivity.
Qed.

Lemma run_health_check (ls : list Label) :
  forall m m',
    Forall task_no_monitor_line (pool m) ->
    run m ls = Some m' ->
    healthCheckCount m' = healthCheckCount m + Z.of_nat (count_ticks ls) /\
    monitor_lines (trace m')
    = monitor_lines (trace m)
      ++ map (fun i => healthCheckCount m + Z.of_nat i)
             (seq 1 (count_ticks ls)).
Proof.
  induction ls as [ | l ls IH ]; intros m m' Hm Hrun; cbn [run] in Hrun.
  - injection Hrun as <-. cbn. rewrite app_nil_r. split; [ lia | reflexivity ].
  - destruct (step m l) as [m1 | ] eqn:Hs; [ | discriminate ].
    destruct (step_health_check m l m1 Hm Hs) as [Hm1 Hl].
    destruct (IH m1 m' Hm1 Hrun) as [Hc Ht].
    destruct l as [txHash | | i env]; cbn [count_ticks];
      destruct Hl as [Hc1 Ht1]; rewrite Hc, Ht, Hc1, Ht1.
    + split; reflexivity.
    + split; [ lia | ].
      rewrite <- app_assoc. f_equal. cbn [seq map app].
      f_equal.
      rewrite <- (seq_shift (count_ticks ls) 1), map_map.
      apply map_ext. intros a. lia.
    + split; reflexivity.
Qed.

(** X13. After any run of the monitor the health check counter is the
    number of times the health check has fired, and the check numbers it
    logged are 1, 2, 3, ... in that order; no handler writes that line. *)
Theorem health_check_counts_the_ticks :
  forall (w : World) (m0 : Machine) (ls : list Label) (m : Machine),
    startMonitoring w = Some m0 ->
    run m0 ls = Some m ->
    healthCheckCount m = Z.of_nat (count_ticks ls) /\
    monitor_lines (trace m) = map Z.of_nat (seq 1 (count_ticks ls)).
Proof.
  intros w m0 ls m Hstart Hrun.
  apply startMonitoring_fresh in Hstart. destruct Hstart as [-> _].
  destruct (run_health_check ls (monitoring w) m (Forall_nil _) Hrun)
    as [Hc Ht].
  cbn in Hc, Ht. split; [ exact Hc | ].
  rewrite Ht. apply map_ext. intros a. reflexivity.
Qed.

(** ** The properties above on the sample inputs *)

Lemma reachable_run_or (w : World) (ls : list Label) :
  flashbotsProvider w = true ->
  run (monitoring w) ls = Some (run_or (monitoring w) ls) ->
  reachable (run_or (monitoring w) ls).
Proof.
  intros Hfb Hrun. exists w, (monitoring w), ls.
  unfold startMonitoring. rewrite Hfb. split; [ reflexivity | exact Hrun ].
Qed.

Lemma one_submission_reachable :
  reachable (run_or (monitoring (ready_world 7 0.9%float)) one_submission).
Proof. apply reachable_run_or; vm_compute; reflexivity. Qed.

Lemma loan_requests_stay_within_bounds_witness :
  TARGET_TOKEN_ADDRESS = TARGET_TOKEN_ADDRESS /\
  parseEther_int 10 <= parseEther_int 100000 <= MAX_LOAN_WEI.
Proof.
  apply (loan_requests_stay_within_bounds
           (run_or (monitoring (ready_world 7 0.9%float)) one_submission)
           TARGET_TOKEN_ADDRESS (parseEther_int 100000) (Some "0xdeadbeef")).
  - exact one_submission_reachable.
  - vm_compute. do 5 right. left. reflexivity.
Defined.

Lemma bundles_are_sent_after_their_clean_simulation_witness :
  In (Called (simulate sample_bundle 101))
     (trace (run_or (monitoring (ready_world 7 0.9%float)) one_submission)).
Proof.
  destruct bundles_are_sent_after_their_clean_simulation as [_ H].
  apply (H (run_or (monitoring (ready_world 7 0.9%float)) one_submission)
           sample_bundle 101).
  - exact one_submission_reachable.
  - vm_compute. do 9 right. left. reflexivity.
Defined.

Lemma bundles_are_signed_with_the_tracked_nonce_witness :
  3000000 = GAS_LIMIT.
Proof.
  destruct bundles_are_signed_with_the_tracked_nonce as [_ H].
  apply (H (run_or (monitoring (ready_world 7 0.9%float)) one_submission)
           sample_populated (num 7) 3000000).
  - exact one_submission_reachable.
  - vm_compute. do 6 right. left. reflexivity.
Defined.

Lemma profitable_estimate_is_whole_ether_witness :
  exists q,
    1 <= q /\
    10 ^ 37 = q * WEI_PER_ETHER /\
    parseEther_int 10 <= loanAmount (10 ^ 37) <= MAX_LOAN_WEI.
Proof.
  destruct profitable_estimate_is_whole_ether as [H _].
  apply (H sample_tx happy_oracle (ready_world 7 0.9%float)
           (mkOpportunity true (10 ^ 37) (0.9 * 0.4 + 0.6)%float));
    reflexivity.
Defined.

Lemma main_monitors_only_after_startup_witness :
  boot (main (fulfilled tt) (fulfilled tt) happy_oracle (fun _ => 0.9%float))
  = Monitoring (monitoring (ready_world 7 0.9%float)) /\
  boot (main (fulfilled tt) (fulfilled tt)
             (failing_count "timeout" happy_oracle) (fun _ => 0.9%float))
  = Exited 1 /\
  startup_events (main (fulfilled tt) (rejected "invalid private key")
                       happy_oracle (fun _ => 0.9%float)) = [].
Proof.
  split; [ | split ].
  - apply (main_monitors_only_after_startup (fulfilled tt) (fulfilled tt)
             happy_oracle (fun _ => 0.9%float)).
    split; [ reflexivity | split; [ reflexivity | ] ].
    exists 100, 7. repeat split.
  - apply (main_monitors_only_after_startup (fulfilled tt) (fulfilled tt)
             (failing_count "timeout" happy_oracle) (fun _ => 0.9%float)).
    intros m H. discriminate H.
  - apply (main_monitors_only_after_startup (fulfilled tt)
             (rejected "invalid private key") happy_oracle
             (fun _ => 0.9%float)).
    right. exists "invalid private key". reflexivity.
Defined.

Lemma handler_throws_only_when_witness :
  outcome (exec periodicResync (failing_count "timeout" happy_oracle)
                (ready_world 7 0.9%float)) = Threw "timeout" /\
  exec (onPending "0xaa") (failing_fetch "timeout" happy_oracle)
       (ready_world 7 0.9%float)
  = mkRun (Threw "timeout") (ready_world 7 0.9%float)
          [Called (getTransaction "0xaa")].
Proof.
  destruct handler_throws_only_when as (_ & Hfetch & Hresync).
  split.
  - apply Hresync. reflexivity.
  - apply Hfetch. reflexivity.
Defined.

Lemma a_throwing_handler_stops_the_loop_witness :
  exists (k : nat) (m' : Machine),
    run (monitoring (ready_world 7 0.9%float))
        (Tick :: repeat (Settle 0 (failing_count "timeout" happy_oracle)) k)
    = Some m' /\
    exited m' = true /\
    (forall l, step m' l = None) /\
    (forall l ls, run m' (l :: ls) = None).
Proof.
  apply (a_throwing_handler_stops_the_loop
           (JobResync (failing_count "timeout" happy_oracle))
           (monitoring (ready_world 7 0.9%float)));
    reflexivity.
Defined.

Lemma initialized_monitor_stays_ready_witness :
  flashbotsProvider
    (world (run_or (monitoring (ready_world 7 0.9%float)) one_submission))
  = true /\
  exists n',
    nonce (world (run_or (monitoring (ready_world 7 0.9%float))
                         one_submission)) = num n' /\ 7 <= n'.
Proof.
  destruct (initialized_monitor_stays_ready (ready_world 7 0.9%float) 7
              (monitoring (ready_world 7 0.9%float)) one_submission
              (run_or (monitoring (ready_world 7 0.9%float)) one_submission))
    as (Hfb & Hn & _);
    [ reflexivity | reflexivity | vm_compute; reflexivity | ].
  split; [ exact Hfb | exact Hn ].
Defined.

Lemma resync_compares_with_the_nonce_at_delivery_witness :
  nonce (final (exec periodicResync (with_count 5 happy_oracle)
                  (final (exec periodicResync (with_count 12 happy_oracle)
                            (ready_world 7 0.9%float)))))
  = num (Z.max 7 (Z.max 12 5)).
Proof.
  destruct resync_compares_with_the_nonce_at_delivery as [_ H].
  apply (H (with_count 12 happy_oracle) (with_count 5 happy_oracle)
           (ready_world 7 0.9%float) 12 5); reflexivity.
Defined.

Lemma health_check_counts_the_ticks_witness :
  healthCheckCount (run_or (monitoring (ready_world 7 0.9%float)) two_ticks)
  = 2 /\
  monitor_lines
    (trace (run_or (monitoring (ready_world 7 0.9%float)) two_ticks))
  = [1; 2].
Proof.
  apply (health_check_counts_the_ticks (ready_world 7 0.9%float)
           (monitoring (ready_world 7 0.9%float)) two_ticks);
    [ reflexivity | vm_compute; reflexivity ].
Defined.
